(** * env_sync.py: persistent environment variables across platforms

    A shallow embedding of [src/env_sync.py] and the properties of its
    shell-profile and registry back ends, of the manager factory and of the
    import-and-apply flow of [interactive_mode].

    Modelling conventions.
    - A Python [str] is a [string]; its characters are the code points
      U+0000..U+00FF.  [isspace] and [lower] are Python's on that range.
    - The host is a [World]: platform name, process environment, home
      directory, text files, the two registry hives, standard input and
      standard output.  A path is either absent or a text file that the
      process may read and write; a registry hive carries the access right
      that [winreg.OpenKey(..., KEY_ALL_ACCESS)] asks for.  Where a
      statement is about a profile the process may not open, the file
      permissions are the [Modes] parameter of the computations in
      [UnderModes].
    - Python code is a computation [Py A]: it takes a world and gives back a
      world with either a value or a raised exception.  [try ... except]
      is [try_except]; an exception nobody catches ends the program.
    - [winreg] can be imported on Windows only; opening a key with a first
      argument that is no key handle is a [TypeError].
    - Every call of a mutating back-end method is recorded in the [calls]
      field of the world (a ghost trace: the Python code has no such list). *)

From Stdlib Require Import String Ascii List Bool Arith Lia.
From stdpp Require Import base option list gmap strings.

Local Open Scope string_scope.
Local Open Scope list_scope.

#[local] Arguments String.append !s1 s2 : simpl nomatch.
#[local] Arguments Ascii.eqb : simpl never.

(** ** Python strings *)

Module PyStr.

Definition LF : ascii := "010"%char.
Definition CR : ascii := "013"%char.
Definition DQUOTE : ascii := "034"%char.
Definition SQUOTE : ascii := "039"%char.

(** A one-character string. *)
Definition chr (c : ascii) : string := String c "".

(** [s.startswith(p)] *)
Fixpoint startswith (s p : string) : bool :=
  match p, s with
  | "", _ => true
  | String a p', String b s' => Ascii.eqb a b && startswith s' p'
  | String _ _, "" => false
  end.

(** [p in s] *)
Fixpoint contains (p s : string) : bool :=
  startswith s p ||
  match s with
  | "" => false
  | String _ s' => contains p s'
  end.

(** [c in chars] for a single character [c] *)
Fixpoint char_in (c : ascii) (chars : string) : bool :=
  match chars with
  | "" => false
  | String a r => Ascii.eqb c a || char_in c r
  end.

(** [s[n:]] *)
Fixpoint skip (n : nat) (s : string) : string :=
  match n, s with
  | O, _ => s
  | S n', String _ s' => skip n' s'
  | S _, "" => ""
  end.

(** [c.isspace()] on U+0000..U+00FF: TAB..CR, FS..US, SPACE, NEL, NBSP. *)
Definition isspace (c : ascii) : bool :=
  let n := nat_of_ascii c in
  (((9 <=? n) && (n <=? 13)) || ((28 <=? n) && (n <=? 31))
   || (n =? 32) || (n =? 133) || (n =? 160))%nat.

Fixpoint lstrip_by (f : ascii -> bool) (s : string) : string :=
  match s with
  | "" => ""
  | String c r => if f c then lstrip_by f r else s
  end.

Fixpoint rstrip_by (f : ascii -> bool) (s : string) : string :=
  match s with
  | "" => ""
  | String c r =>
      match rstrip_by f r with
      | "" => if f c then "" else chr c
      | r' => String c r'
      end
  end.

Definition strip_by (f : ascii -> bool) (s : string) : string :=
  rstrip_by f (lstrip_by f s).

(** [s.strip()] *)
Definition strip (s : string) : string := strip_by isspace s.

(** [s.strip(chars)] *)
Definition strip_chars (chars s : string) : string :=
  strip_by (fun c => char_in c chars) s.

(** [s.split(sep, 1)] for a one-character [sep] that occurs in [s]: the
    part before the first [sep] and the part after it.  (Without [sep]
    in [s] Python gives a one-element list; the code below only unpacks
    the result under the guard [sep in s].) *)
Fixpoint split_once (sep : ascii) (s : string) : string * string :=
  match s with
  | "" => ("", "")
  | String c r =>
      if Ascii.eqb c sep then ("", r)
      else let '(a, b) := split_once sep r in (String c a, b)
  end.

(** [s.split(sep)] for a one-character [sep] *)
Fixpoint split (sep : ascii) (s : string) : list string :=
  match s with
  | "" => [""]
  | String c r =>
      if Ascii.eqb c sep then "" :: split sep r
      else match split sep r with
           | h :: t => String c h :: t
           | [] => [chr c]
           end
  end.

(** [c.lower()] on U+0000..U+00FF: A..Z and the Latin-1 capitals
    U+00C0..U+00DE without the multiplication sign U+00D7. *)
Definition lower_char (c : ascii) : ascii :=
  let n := nat_of_ascii c in
  if (((65 <=? n) && (n <=? 90))
      || ((192 <=? n) && (n <=? 222) && negb (n =? 215)))%nat
  then ascii_of_nat (n + 32) else c.

(** [s.lower()] *)
Fixpoint lower (s : string) : string :=
  match s with
  | "" => ""
  | String c r => String (lower_char c) (lower r)
  end.

(** What a text file opened for reading delivers: universal newlines,
    [\r\n] and a lone [\r] both become [\n]. *)
Fixpoint universal_newlines (s : string) : string :=
  match s with
  | "" => ""
  | String c r =>
      if Ascii.eqb c CR then
        String LF (match r with
                   | String d r' =>
                       if Ascii.eqb d LF then universal_newlines r'
                       else universal_newlines r
                   | "" => ""
                   end)
      else String c (universal_newlines r)
  end.

(** [f.readlines()], and the lines [for line in f] yields: every line
    keeps its terminating [\n]; the last one may lack it. *)
Fixpoint readlines (s : string) : list string :=
  match s with
  | "" => []
  | String c r =>
      if Ascii.eqb c LF then chr c :: readlines r
      else match readlines r with
           | [] => [chr c]
           | l :: ls => String c l :: ls
           end
  end.

(** [''.join(lines)]: what writing the lines one after another leaves. *)
Fixpoint join (lines : list string) : string :=
  match lines with
  | [] => ""
  | l :: ls => l +:+ join ls
  end.

End PyStr.
Import PyStr.

(** ** The host *)

(** The [Environment] key of one registry root: its values, and whether the
    process is granted [KEY_ALL_ACCESS] on it. *)
Record Hive := {
  hive_values : gmap string string;
  hive_all_access : bool;
}.

(** The predefined registry roots the program names. *)
Inductive hkey := HKEY_CURRENT_USER | HKEY_LOCAL_MACHINE.

(** Exceptions; every one of them is a subclass of [Exception]. *)
Inductive exn :=
| FileNotFoundError (what : string)
| PermissionError (what : string)
| TypeError (msg : string)
| ValueError (msg : string)
| AttributeError (cls attr : string)
| ModuleNotFoundError (name : string)
| EOFError.

(** What reaches standard output: [Say t] is [print(t)], [SayExn t e] is
    [print(f"{t}{e}")], [SayList t l] is [print(f"{t}{l}")] and [Prompt t]
    is the prompt that [input(t)] shows. *)
Inductive output :=
| Say (text : string)
| SayExn (text : string) (e : exn)
| SayList (text : string) (l : list string)
| Prompt (text : string).

(** Ghost trace of the calls of the mutating back-end methods. *)
Inductive call :=
| CallDelete (key : string)
| CallSet (key value : string).

Record World := {
  host_platform : string;            (* what platform.system() returns *)
  host_environ : gmap string string; (* os.environ *)
  home : string;                     (* the home directory, no trailing slash *)
  files : gmap string string;        (* path to file contents *)
  hkcu : Hive;                       (* HKEY_CURRENT_USER\Environment *)
  hklm : Hive;                       (* HKEY_LOCAL_MACHINE\Environment *)
  stdin : list string;               (* the lines the operator will type *)
  stdout : list output;
  calls : list call;
}.

Definition with_files (f : gmap string string) (w : World) : World :=
  {| host_platform := host_platform w; host_environ := host_environ w;
     home := home w; files := f; hkcu := hkcu w; hklm := hklm w;
     stdin := stdin w; stdout := stdout w; calls := calls w |}.

Definition with_hive (h : hkey) (v : Hive) (w : World) : World :=
  {| host_platform := host_platform w; host_environ := host_environ w;
     home := home w; files := files w;
     hkcu := match h with HKEY_CURRENT_USER => v | _ => hkcu w end;
     hklm := match h with HKEY_LOCAL_MACHINE => v | _ => hklm w end;
     stdin := stdin w; stdout := stdout w; calls := calls w |}.

Definition with_stdin (i : list string) (w : World) : World :=
  {| host_platform := host_platform w; host_environ := host_environ w;
     home := home w; files := files w; hkcu := hkcu w; hklm := hklm w;
     stdin := i; stdout := stdout w; calls := calls w |}.

Definition with_stdout (o : list output) (w : World) : World :=
  {| host_platform := host_platform w; host_environ := host_environ w;
     home := home w; files := files w; hkcu := hkcu w; hklm := hklm w;
     stdin := stdin w; stdout := o; calls := calls w |}.

Definition with_calls (c : list call) (w : World) : World :=
  {| host_platform := host_platform w; host_environ := host_environ w;
     home := home w; files := files w; hkcu := hkcu w; hklm := hklm w;
     stdin := stdin w; stdout := stdout w; calls := c |}.

Definition hive_of (h : hkey) (w : World) : Hive :=
  match h with
  | HKEY_CURRENT_USER => hkcu w
  | HKEY_LOCAL_MACHINE => hklm w
  end.

(** ** Python computations *)

Inductive outcome (A : Type) :=
| Return (a : A)
| Raise (e : exn).
Arguments Return {A} a.
Arguments Raise {A} e.

Definition Py (A : Type) : Type := World -> outcome A * World.

Definition ret {A} (a : A) : Py A := fun w => (Return a, w).

Definition raise {A} (e : exn) : Py A := fun w => (Raise e, w).

Definition bind {A B} (m : Py A) (k : A -> Py B) : Py B :=
  fun w =>
    match m w with
    | (Return a, w') => k a w'
    | (Raise e, w') => (Raise e, w')
    end.

#[global] Instance py_ret : MRet Py := @ret.
#[global] Instance py_bind : MBind Py := fun A B k m => bind m k.

(** [try: body  except cls as e: handler e]: an exception outside [cls]
    goes on to the enclosing handler. *)
Definition try_except_cls {A} (cls : exn -> bool) (body : Py A)
    (handler : exn -> Py A) : Py A :=
  fun w =>
    match body w with
    | (Return a, w') => (Return a, w')
    | (Raise e, w') => if cls e then handler e w' else (Raise e, w')
    end.

(** [try: body  except Exception as e: handler e] *)
Definition try_except {A} (body : Py A) (handler : exn -> Py A) : Py A :=
  try_except_cls (fun _ => true) body handler.

(** [try: body  except cls as e: first e  except Exception as e: second e] *)
Definition try_except_2 {A} (body : Py A) (cls : exn -> bool)
    (first second : exn -> Py A) : Py A :=
  fun w =>
    match body w with
    | (Return a, w') => (Return a, w')
    | (Raise e, w') => if cls e then first e w' else second e w'
    end.

Definition is_FileNotFoundError (e : exn) : bool :=
  match e with
  | FileNotFoundError _ => true
  | _ => false
  end.

(** [for x in l: body x] *)
Fixpoint for_each {A} (l : list A) (body : A -> Py unit) : Py unit :=
  match l with
  | [] => ret tt
  | x :: l' => body x;; for_each l' body
  end.

(** [[x for x in l if test x]] with an effectful test, the shape of the
    loops that collect [existing_vars]. *)
Fixpoint collect {A} (l : list A) (test : A -> Py bool) : Py (list A) :=
  match l with
  | [] => ret (@nil A)
  | x :: l' =>
      b ← test x;
      rest ← collect l' test;
      ret (if b : bool then x :: rest else rest)
  end.

Definition emit (o : output) : Py unit :=
  fun w => (Return tt, with_stdout (stdout w ++ [o]) w).

Definition print (text : string) : Py unit := emit (Say text).

Definition record (c : call) : Py unit :=
  fun w => (Return tt, with_calls (calls w ++ [c]) w).

(** [input(prompt)]: the next line of standard input, [EOFError] at its end. *)
Definition readline : Py string :=
  fun w =>
    match stdin w with
    | [] => (Raise EOFError, w)
    | l :: rest => (Return l, with_stdin rest w)
    end.

Definition input (prompt : string) : Py string :=
  emit (Prompt prompt);; readline.

(** [os.path.exists(path)] *)
Definition os_path_exists (path : string) : Py bool :=
  fun w => (Return (bool_decide (is_Some (files w !! path))), w).

(** [os.path.expanduser(path)] for a path of the form [~/...] *)
Definition os_path_expanduser (path : string) : Py string :=
  fun w => (Return (home w +:+ skip 1 path), w).

(** [with open(path, "r") as f: f.read()] *)
Definition read_text (path : string) : Py string :=
  fun w =>
    match files w !! path with
    | Some c => (Return (universal_newlines c), w)
    | None => (Raise (FileNotFoundError path), w)
    end.

(** [with open(path, "w") as f: f.write(text)]: the file is truncated or
    created. *)
Definition write_text (path text : string) : Py unit :=
  fun w => (Return tt, with_files (<[path := text]> (files w)) w).

(** [with open(path, "a") as f: f.write(text)]: the file is created when it
    is not there. *)
Definition append_text (path text : string) : Py unit :=
  fun w =>
    (Return tt,
     with_files (<[path := default "" (files w !! path) +:+ text]> (files w)) w).

(** *** The part of [winreg] the program calls *)

(** [import winreg]: the module exists on Windows only. *)
Definition import_winreg : Py unit :=
  fun w =>
    if host_platform w =? "Windows" then (Return tt, w)
    else (Raise (ModuleNotFoundError "winreg"), w).

(** What the program passes as the first argument of [winreg.OpenKey]: a
    predefined root, or (in [variable_exists_in_registry]) a plain string. *)
Inductive hkey_arg :=
| Root (h : hkey)
| NotAKey (s : string).

(** [winreg.OpenKey(key, "Environment", 0, access)]: a first argument that
    is no key handle is a [TypeError]; [KEY_ALL_ACCESS] needs the right. *)
Definition winreg_OpenKey (key : hkey_arg) (all_access : bool) : Py hkey :=
  fun w =>
    match key with
    | NotAKey _ => (Raise (TypeError "The object is not a PyHKEY object"), w)
    | Root h =>
        if all_access && negb (hive_all_access (hive_of h w))
        then (Raise (PermissionError "Access is denied"), w)
        else (Return h, w)
    end.

(** [winreg.QueryValueEx(reg_key, name)] *)
Definition winreg_QueryValueEx (reg_key : hkey) (name : string) : Py string :=
  fun w =>
    match hive_values (hive_of reg_key w) !! name with
    | Some v => (Return v, w)
    | None => (Raise (FileNotFoundError name), w)
    end.

(** [winreg.DeleteValue(reg_key, name)] *)
Definition winreg_DeleteValue (reg_key : hkey) (name : string) : Py unit :=
  fun w =>
    let h := hive_of reg_key w in
    match hive_values h !! name with
    | Some _ =>
        (Return tt,
         with_hive reg_key {| hive_values := delete name (hive_values h);
                              hive_all_access := hive_all_access h |} w)
    | None => (Raise (FileNotFoundError name), w)
    end.

(** [winreg.SetValueEx(reg_key, name, 0, REG_SZ, value)] *)
Definition winreg_SetValueEx (reg_key : hkey) (name value : string) : Py unit :=
  fun w =>
    let h := hive_of reg_key w in
    (Return tt,
     with_hive reg_key {| hive_values := <[name := value]> (hive_values h);
                          hive_all_access := hive_all_access h |} w).

(** [platform.system()] *)
Definition platform_system : Py string :=
  fun w => (Return (host_platform w), w).

(** [os.environ.get(name, dflt)] *)
Definition os_environ_get (name dflt : string) : Py string :=
  fun w => (Return (default dflt (host_environ w !! name)), w).

(** [x in l] for a list of strings *)
Definition in_list (x : string) (l : list string) : bool :=
  existsb (String.eqb x) l.

(** ** The managers *)

Inductive Manager :=
| WindowsManager
| LinuxManager
| MacOSManager.

Definition class_name (m : Manager) : string :=
  match m with
  | WindowsManager => "WindowsEnvironmentVariableManager"
  | LinuxManager => "LinuxEnvironmentVariableManager"
  | MacOSManager => "MacOSenvironmentVariableManager"
  end.

(** The methods of the abstract base class, inherited by every manager. *)
Module EnvironmentVariableManager.

Definition variable_exists_in_shell_rc (rc_file key : string) : Py bool :=
  ex ← os_path_exists rc_file;
  if ex : bool then
    try_except
      (contents ← read_text rc_file;
       ret (contains ("export " +:+ key +:+ "=") contents))
      (fun e =>
         emit (SayExn ("Error reading " +:+ rc_file +:+ ": ") e);; ret false)
  else ret false.

(** The body shared by the [user] and [system] branches; [root_key] is a
    string, as in the source. *)
Definition query_registry (root_key key : string) : Py bool :=
  try_except
    (import_winreg;;
     reg_key ← winreg_OpenKey (NotAKey root_key) false;
     try_except_cls is_FileNotFoundError
       (winreg_QueryValueEx reg_key key;; ret true)
       (fun _ => ret false))
    (fun e => emit (SayExn "Error accessing registry: " e);; ret false).

Definition variable_exists_in_registry (key system : string) : Py bool :=
  if system =? "user" then query_registry "HKEY_CURRENT_USER" key
  else if system =? "system" then query_registry "HKEY_LOCAL_MACHINE" key
  else ret false.

Definition get_shell_rc_file : Py string :=
  system ← platform_system;
  if (system : string) =? "Darwin" then
    shell ← os_environ_get "SHELL" "";
    if contains "zsh" shell then os_path_expanduser "~/.zshrc"
    else os_path_expanduser "~/.bashrc"
  else os_path_expanduser "~/.bashrc".

(** The body of the loop over the lines of the rc file. *)
Definition export_line (keys : option (list string))
    (env_vars : gmap string string) (line : string) : gmap string string :=
  let line := strip line in
  if startswith line "export " then
    let remainder := skip (String.length "export ") line in
    if contains "=" remainder then
      let '(var_name, var_value) := split_once "=" remainder in
      let var_name := strip var_name in
      let var_value :=
        strip_chars (chr SQUOTE) (strip_chars (chr DQUOTE) (strip var_value)) in
      if match keys with
         | None => true
         | Some keys => in_list var_name keys
         end
      then <[var_name := var_value]> env_vars
      else env_vars
    else env_vars
  else env_vars.

(** The export of the shell back ends (the Windows manager overrides it). *)
Definition export_variables (keys : option (list string))
    : Py (gmap string string) :=
  rc_file ← get_shell_rc_file;
  ex ← os_path_exists rc_file;
  if ex : bool then
    try_except
      (text ← read_text rc_file;
       ret (foldl (export_line keys) ∅ (readlines text)))
      (fun e =>
         emit (SayExn ("Error reading " +:+ rc_file +:+ ": ") e);; ret ∅)
  else
    print ("Shell rc file not found: " +:+ rc_file);; ret ∅.

End EnvironmentVariableManager.

Module WindowsEnvironmentVariableManager.

Definition root_of_system (system : string) : Py hkey :=
  if system =? "user" then ret HKEY_CURRENT_USER
  else if system =? "system" then ret HKEY_LOCAL_MACHINE
  else raise (ValueError "Invalid system value. Use 'user' or 'system'.").

Definition delete_variable (key system : string) : Py unit :=
  record (CallDelete key);;
  try_except
    (import_winreg;;
     key_path ← root_of_system system;
     reg_key ← winreg_OpenKey (Root key_path) true;
     winreg_DeleteValue reg_key key;;
     print ("Environment variable " +:+ key +:+ " deleted from Windows ("
            +:+ system +:+ ")."))
    (fun e => emit (SayExn "Error deleting variable: " e)).

Definition set_variable (key value system : string) : Py unit :=
  record (CallSet key value);;
  try_except
    (import_winreg;;
     key_path ← root_of_system system;
     reg_key ← winreg_OpenKey (Root key_path) true;
     winreg_SetValueEx reg_key key value;;
     print ("Environment variable " +:+ key +:+ "=" +:+ value
            +:+ " added to Windows (" +:+ system +:+ ")."))
    (fun e => emit (SayExn "Error setting variable: " e)).

End WindowsEnvironmentVariableManager.

Module LinuxEnvironmentVariableManager.

Definition remove_variable_from_shell_rc (rc_file key : string) : Py unit :=
  record (CallDelete key);;
  try_except
    (text ← read_text rc_file;
     let lines := readlines text in
     write_text rc_file
       (join (List.filter
                (fun line => negb (startswith line ("export " +:+ key +:+ "=")))
                lines));;
     print ("Environment variable " +:+ key +:+ " removed from "
            +:+ rc_file +:+ "."))
    (fun e => emit (SayExn "Error removing variable from shell rc: " e)).

Definition set_variable (key value system : string) : Py unit :=
  record (CallSet key value);;
  bashrc ← os_path_expanduser "~/.bashrc";
  try_except_2
    (append_text bashrc (chr LF +:+ "export " +:+ key +:+ "=" +:+ value);;
     print ("Environment variable " +:+ key +:+ "=" +:+ value
            +:+ " added to " +:+ bashrc))
    is_FileNotFoundError
    (fun _ => print ("Error: Configuration file not found at " +:+ bashrc))
    (fun e => emit (SayExn "Error setting variable: " e)).

End LinuxEnvironmentVariableManager.

Module MacOSenvironmentVariableManager.

Definition set_variable (key value system : string) : Py unit :=
  record (CallSet key value);;
  zshrc ← os_path_expanduser "~/.zshrc";
  try_except_2
    (append_text zshrc (chr LF +:+ "export " +:+ key +:+ "=" +:+ value);;
     print ("Environment variable " +:+ key +:+ "=" +:+ value
            +:+ " added to " +:+ zshrc))
    is_FileNotFoundError
    (fun _ => print ("Error: Configuration file not found at " +:+ zshrc))
    (fun e => emit (SayExn "Error setting variable: " e)).

End MacOSenvironmentVariableManager.

(** Method lookup on a manager object.  A class that does not define (or
    inherit) the method gives [AttributeError]. *)

Definition set_variable (self : Manager) (key value system : string) : Py unit :=
  match self with
  | WindowsManager => WindowsEnvironmentVariableManager.set_variable key value system
  | LinuxManager => LinuxEnvironmentVariableManager.set_variable key value system
  | MacOSManager => MacOSenvironmentVariableManager.set_variable key value system
  end.

Definition remove_variable_from_shell_rc (self : Manager) (rc_file key : string)
    : Py unit :=
  match self with
  | LinuxManager =>
      LinuxEnvironmentVariableManager.remove_variable_from_shell_rc rc_file key
  | _ => raise (AttributeError (class_name self) "remove_variable_from_shell_rc")
  end.

Definition delete_variable (self : Manager) (key system : string) : Py unit :=
  match self with
  | WindowsManager => WindowsEnvironmentVariableManager.delete_variable key system
  | _ => raise (AttributeError (class_name self) "delete_variable")
  end.

Definition isinstance_Windows (m : Manager) : bool :=
  match m with
  | WindowsManager => true
  | _ => false
  end.

(** ** The factory *)

Definition get_environment_variable_manager : Py Manager :=
  operational_system ← platform_system;
  if (operational_system : string) =? "Windows" then ret WindowsManager
  else if operational_system =? "Linux" then ret LinuxManager
  else if operational_system =? "Darwin" then ret MacOSManager
  else raise (ValueError ("Unsupported operating system: " +:+ operational_system)).

(** ** The apply flow

    Lines 241 to 280 of [interactive_mode]: what the import branch does with
    the variables [env_vars] once the operator has confirmed them.  The
    dictionary is the list of its items in insertion order.  The result is
    [true] when the flow reached the loop of [set_variable] calls and
    [false] when it left through the [return] of line 266. *)

Definition overwrite_prompt : string :=
  "Enter the environment variable key(s) to overwrite (separate multiple keys with commas), type 'all' to overwrite all variables, or press Enter to cancel (no changes will be made): ".

Definition interactive_mode_apply (env_vars : list (string * string)) : Py bool :=
  manager ← get_environment_variable_manager;
  rc_file ← EnvironmentVariableManager.get_shell_rc_file;
  '(existing_vars, rc_file) ←
    (if isinstance_Windows manager then
       existing_vars ←
         collect (map fst env_vars)
           (fun key =>
              EnvironmentVariableManager.variable_exists_in_registry key "user");
       ret (existing_vars, rc_file)
     else
       rc_file ← EnvironmentVariableManager.get_shell_rc_file;
       existing_vars ←
         collect (map fst env_vars)
           (fun key =>
              EnvironmentVariableManager.variable_exists_in_shell_rc rc_file key);
       ret (existing_vars, rc_file));
  go_on ←
    match existing_vars : list string with
    | [] => ret true
    | _ :: _ =>
        emit (SayList "The following variables already exist: " existing_vars);;
        answer ← input "Do you want to overwrite all of them? (y/n): ";
        let overwrite_all := lower (strip answer) in
        selected ←
          (if negb (in_list overwrite_all ["y"; "yes"]) then
             overwrite_choice ← input overwrite_prompt;
             let existing_vars :=
               if lower overwrite_choice =? "all" then existing_vars
               else map strip
                      (List.filter (fun k => negb (strip k =? ""))
                         (split "," overwrite_choice)) in
             match existing_vars with
             | [] =>
                 print "No valid environment variables found for overwrite. Exiting.";;
                 ret None
             | _ :: _ => ret (Some existing_vars)
             end
           else ret (Some existing_vars));
        match selected : option (list string) with
        | None => ret false
        | Some existing_vars =>
            for_each existing_vars
              (fun key =>
                 if isinstance_Windows manager
                 then delete_variable manager key "user"
                 else remove_variable_from_shell_rc manager rc_file key);;
            ret true
        end
    end;
  if go_on : bool then
    (if isinstance_Windows manager then
       answer ← input "Set variables as 'user' or 'system'? ";
       let system_choice := lower (strip answer) in
       for_each env_vars
         (fun '(key, value) => set_variable manager key value system_choice)
     else
       for_each env_vars
         (fun '(key, value) => set_variable manager key value "user"));;
    ret true
  else ret false.

(** ** Worlds and runs *)

Definition no_access_hive : Hive :=
  {| hive_values := ∅; hive_all_access := false |}.

(** A host with the given platform, login shell and text files; the home
    directory is [/home/u]. *)
Definition host (platform shell : string) (fs : list (string * string))
    (typed : list string) : World :=
  {| host_platform := platform;
     host_environ := {[ "SHELL" := shell ]};
     home := "/home/u";
     files := list_to_map fs;
     hkcu := no_access_hive; hklm := no_access_hive;
     stdin := typed; stdout := []; calls := [] |}.

Definition value_of {A} (r : outcome A * World) : option A :=
  match r.1 with
  | Return a => Some a
  | Raise _ => None
  end.

(** The contents of the file at [path] after a run. *)
Definition file_after {A} (path : string) (r : outcome A * World) : option string :=
  files r.2 !! path.

(** ** Vocabulary of the statements *)

(** The lines a reader of the file at [path] gets; none when it is absent. *)
Definition rc_lines (path : string) (w : World) : list string :=
  match files w !! path with
  | Some c => readlines (universal_newlines c)
  | None => []
  end.

(** The number of lines a reader of the file at [path] gets. *)
Definition line_count (path : string) (w : World) : nat :=
  length (rc_lines path w).

(** The pattern [f"export {key}="] of the existence check and of the delete. *)
Definition export_pattern (key : string) : string :=
  "export " +:+ key +:+ "=".

(** The lines of the file at [path] that carry an entry of [key] in the
    sense of the delete: those that start with the pattern. *)
Definition entries (path key : string) (w : World) : list string :=
  List.filter (fun line => startswith line (export_pattern key)) (rc_lines path w).

Fixpoint all_chars (f : ascii -> bool) (s : string) : bool :=
  match s with
  | "" => true
  | String c r => f c && all_chars f r
  end.

(** The first character of [s] satisfies [f]. *)
Definition head_is (f : ascii -> bool) (s : string) : bool :=
  match s with
  | "" => false
  | String c _ => f c
  end.

(** The last character of [s] satisfies [f]. *)
Fixpoint last_is (f : ascii -> bool) (s : string) : bool :=
  match s with
  | "" => false
  | String c "" => f c
  | String _ r => last_is f r
  end.

(** White space or a quote character: what the export removes from the
    ends of a value. *)
Definition space_or_quote (c : ascii) : bool :=
  isspace c || char_in c (chr DQUOTE) || char_in c (chr SQUOTE).

(** The registry root that the scope names, if it names one. *)
Definition root_for (system : string) : option hkey :=
  if system =? "user" then Some HKEY_CURRENT_USER
  else if system =? "system" then Some HKEY_LOCAL_MACHINE
  else None.

(** A key that a profile line gives back as it is: no [=], no line break,
    no white space at either end. *)
Definition plain_key (key : string) : Prop :=
  char_in "="%char key = false /\ char_in LF key = false /\
  char_in CR key = false /\ strip key = key.

(** A value that stays on its line. *)
Definition one_line (value : string) : Prop :=
  char_in LF value = false /\ char_in CR value = false.

(** What the export makes of the text after [=]. *)
Definition unquote (raw : string) : string :=
  strip_chars (chr SQUOTE) (strip_chars (chr DQUOTE) (strip raw)).

(** A line that starts, white space apart, with [export ] and has no [=]
    after it. *)
Definition malformed_export (line : string) : bool :=
  startswith (strip line) "export " &&
  negb (contains "=" (skip 7 (strip line))).

(** A line of the form [export NAME=VALUE], white space apart. *)
Definition wellformed_export (line : string) : bool :=
  startswith (strip line) "export " &&
  contains "=" (skip 7 (strip line)).

(** The name such a line defines. *)
Definition name_of (line : string) : string :=
  strip (split_once "=" (skip 7 (strip line))).1.

(** The key filter of the export: [keys is None or name in keys]. *)
Definition passes (keys : option (list string)) (name : string) : bool :=
  match keys with
  | None => true
  | Some keys => in_list name keys
  end.

(** A line with its terminator: [\n] is its last character and only there. *)
Fixpoint terminated (l : string) : bool :=
  match l with
  | "" => false
  | String c r => if Ascii.eqb c LF then r =? "" else terminated r
  end.

(** A last line that lacks the terminator: not empty, no [\n]. *)
Definition unterminated (l : string) : bool :=
  negb (l =? "") && negb (char_in LF l).

(** The shape of what [readlines] gives: terminated lines, the last one
    possibly unterminated. *)
Fixpoint lines_ok (ls : list string) : bool :=
  match ls with
  | [] => true
  | l :: ls' =>
      match ls' with
      | [] => terminated l || unterminated l
      | _ :: _ => terminated l && lines_ok ls'
      end
  end.

(** The profile file that [get_shell_rc_file] selects on a host. *)
Definition selected_rc (w : World) : string :=
  if host_platform w =? "Darwin" then
    if contains "zsh" (default "" (host_environ w !! "SHELL"))
    then home w +:+ "/.zshrc"
    else home w +:+ "/.bashrc"
  else home w +:+ "/.bashrc".

(** The line [set_variable] writes after the line break. *)
Definition export_entry (key value : string) : string :=
  "export " +:+ key +:+ "=" +:+ value.

(** What a run of the export gives for one name. *)
Definition exported {A} (name : string) (r : outcome (gmap string string) * A)
    : option string :=
  match r.1 with
  | Return env => env !! name
  | Raise _ => None
  end.

(** The existence check as a function of the host. *)
Definition found_in_profile (w : World) (rc_file key : string) : bool :=
  match files w !! rc_file with
  | Some c => contains (export_pattern key) (universal_newlines c)
  | None => false
  end.

(** The keys of the variables that the shell managers find in the selected
    profile: the list [existing_vars] before the operator is asked. *)
Definition conflict_report (w : World) (env_vars : list (string * string))
    : list string :=
  List.filter (found_in_profile w (selected_rc w)) (map fst env_vars).

(** One [set_variable] call per variable, in order. *)
Definition set_calls (env_vars : list (string * string)) : list call :=
  map (fun '(key, value) => CallSet key value) env_vars.

(** The parts of the host that no back-end method changes. *)
Definition same_host (w w' : World) : Prop :=
  host_platform w' = host_platform w /\ host_environ w' = host_environ w /\
  home w' = home w /\ stdin w' = stdin w.

(** ** Scenarios *)

Definition bashrc : string := "/home/u/.bashrc".
Definition zshrc : string := "/home/u/.zshrc".

(** A profile with entries for A and B. *)
Definition profile_A_B : string :=
  "export A=0" +:+ chr LF +:+ "export B=0" +:+ chr LF.

(** The variables A = 1, B = 2 and C = 3. *)
Definition vars_A_B_C : list (string * string) :=
  [("A", "1"); ("B", "2"); ("C", "3")].

(** Linux; the profile has A and B; the operator declines to overwrite all
    and then types the list [A]. *)
Definition linux_selects_A : World :=
  host "Linux" "/bin/bash" [(bashrc, profile_A_B)] ["n"; "A"].

(** macOS with zsh; the profile has A; the operator overwrites all. *)
Definition macos_overwrites_all : World :=
  host "Darwin" "/bin/zsh" [(zshrc, "export A=0" +:+ chr LF)] ["y"].

(** Linux; the profile has A and B; the operator overwrites all. *)
Definition linux_overwrites_all : World :=
  host "Linux" "/bin/bash" [(bashrc, profile_A_B)] ["y"].

(** macOS with bash as the login shell and no profile yet. *)
Definition macos_with_bash : World := host "Darwin" "/bin/bash" [] [].

(** Linux with no profile yet. *)
Definition linux_fresh : World := host "Linux" "/bin/bash" [] [].

(** The value [hello] in double quotes. *)
Definition quoted_hello : string := chr DQUOTE +:+ "hello" +:+ chr DQUOTE.

(** The value [x] in two layers of double quotes. *)
Definition twice_quoted_x : string :=
  chr DQUOTE +:+ chr DQUOTE +:+ "x" +:+ chr DQUOTE +:+ chr DQUOTE.

(** Linux; the profile is the one line [text]. *)
Definition linux_with_line (text : string) : World :=
  host "Linux" "/bin/bash" [(bashrc, text +:+ chr LF)] [].

(** A key with a line break in it. *)
Definition two_line_key : string := "A" +:+ chr LF +:+ "X".

(** Windows; the process has no right to change either registry root. *)
Definition windows_locked : World := host "Windows" "" [] [].

(** A host of an unknown platform. *)
Definition plan9 : World := host "Plan9" "/bin/rc" [] [].

(** ** More of the program *)

(** [[k.strip() for k in text.split(",") if k.strip()]]: how both branches
    of [interactive_mode] read a list of keys. *)
Definition parse_key_list (text : string) : list string :=
  map strip (List.filter (fun k => negb (strip k =? "")) (split "," text)).

(** [d[key] = value] on a dictionary kept as the list of its items: a key
    that is there keeps its place. *)
Fixpoint dict_set (key value : string) (d : list (string * string))
    : list (string * string) :=
  match d with
  | [] => [(key, value)]
  | (k, v) :: d' =>
      if k =? key then (k, value) :: d' else (k, v) :: dict_set key value d'
  end.

(** The [while True] loop of [interactive_input_all], unrolled at most
    [fuel] times; [None] when the fuel ran out. *)
Fixpoint input_loop (fuel : nat) (env_vars : list (string * string))
    : Py (option (list (string * string))) :=
  match fuel with
  | O => ret None
  | S fuel' =>
      answer ← input "Variable key: ";
      let key := strip answer in
      if key =? "" then ret (Some env_vars)
      else
        answer ← input ("Value for '" +:+ key +:+ "': ");
        let value := strip answer in
        input_loop fuel' (dict_set key value env_vars)
  end.

Definition interactive_input_all (fuel : nat)
    : Py (option (list (string * string))) :=
  print "Enter environment variables (press Enter without input to finish):";;
  input_loop fuel [].

(** [winreg.EnumValue(reg_key, i)]: the name and the data of the value of
    index [i], in the order the registry enumerates them; [None] stands
    for the [OSError] that ends the enumeration. *)
Definition winreg_EnumValue (reg_key : hkey) (i : nat)
    : Py (option (string * string)) :=
  fun w => (Return (map_to_list (hive_values (hive_of reg_key w)) !! i), w).

(** The [while True] loop of the registry export, unrolled at most [fuel]
    times; [None] when the fuel ran out, the mapping when [OSError] broke
    the loop. *)
Fixpoint enum_loop (fuel : nat) (keys : option (list string)) (reg_key : hkey)
    (i : nat) (env_vars : gmap string string)
    : Py (option (gmap string string)) :=
  match fuel with
  | O => ret None
  | S fuel' =>
      var ← winreg_EnumValue reg_key i;
      match var : option (string * string) with
      | Some (var_name, var_value) =>
          enum_loop fuel' keys reg_key (S i)
            (if match keys with
                | None => true
                | Some keys => in_list var_name keys
                end
             then <[var_name := var_value]> env_vars
             else env_vars)
      | None => ret (Some env_vars)
      end
  end.

(** [WindowsEnvironmentVariableManager.export_variables]: the import stands
    outside the [try]; every scope but [user] reads the machine root. *)
Definition windows_export_variables (fuel : nat) (keys : option (list string))
    (system : string) : Py (option (gmap string string)) :=
  import_winreg;;
  try_except
    (reg_key ← winreg_OpenKey
                 (Root (if system =? "user" then HKEY_CURRENT_USER
                        else HKEY_LOCAL_MACHINE)) false;
     enum_loop fuel keys reg_key 0 ∅)
    (fun e => emit (SayExn "Error reading registry: " e);; ret (Some ∅)).

Definition export_prompt : string :=
  "Enter the environment variable key(s) to export (separate multiple keys with commas), type 'all' to export all variables, or press Enter to cancel (no changes will be made): ".

(** Lines 283 to 296 of [interactive_mode]: the export branch up to the
    question for the file name.  The result is the mapping that goes on to
    [export_env_vars], [None] when the branch left through the [return] of
    line 296. *)
Definition interactive_mode_export (fuel : nat)
    : Py (option (gmap string string)) :=
  answer ← input export_prompt;
  let export_choice := strip answer in
  let keys :=
    if lower export_choice =? "all" then None
    else Some (parse_key_list export_choice) in
  manager ← get_environment_variable_manager;
  env_vars ←
    (if isinstance_Windows manager then
       answer ← input "Export variables from 'user' or 'system'? (user/system): ";
       let system_choice := lower (strip answer) in
       found ← windows_export_variables fuel keys system_choice;
       ret (default ∅ found)
     else EnvironmentVariableManager.export_variables keys);
  if bool_decide ((env_vars : gmap string string) = ∅) then
    print "No valid environment variables found for export. Exiting.";;
    ret None
  else ret (Some env_vars).

(** The lines of a text after a line break was appended to it. *)
Fixpoint close_last (ls : list string) : list string :=
  match ls with
  | [] => [chr LF]
  | l :: ls' =>
      match ls' with
      | [] => if terminated l then [l; chr LF] else [l +:+ chr LF]
      | _ :: _ => l :: close_last ls'
      end
  end.

(** One registry root with the given values, open to the process. *)
Definition open_hive (values : list (string * string)) : Hive :=
  {| hive_values := list_to_map values; hive_all_access := true |}.

(** Windows with the given values under the user root and under the
    machine root. *)
Definition windows_host (user machine : list (string * string))
    (typed : list string) : World :=
  {| host_platform := "Windows";
     host_environ := ∅;
     home := "C:/Users/u";
     files := ∅;
     hkcu := open_hive user; hklm := open_hive machine;
     stdin := typed; stdout := []; calls := [] |}.

(** A dictionary of typed variables as the operator's loop leaves it: no
    empty key, no white space at the ends of keys and values. *)
Definition dict_ok (d : list (string * string)) : Prop :=
  forall kv, In kv d -> kv.1 <> "" /\ strip kv.1 = kv.1 /\ strip kv.2 = kv.2.

(** The line that the set of a shell manager prints: the bash profile for
    Linux, the zsh profile for macOS. *)
Definition set_report (m : Manager) (home : string) (kv : string * string)
    : output :=
  Say ("Environment variable " +:+ kv.1 +:+ "=" +:+ kv.2 +:+ " added to "
       +:+ home +:+
       match m with MacOSManager => "/.zshrc" | _ => "/.bashrc" end).

(** ** Files the process may not open

    The permissions of the files do not change while the program runs, so
    they are a parameter of the computations that open files: [may_read]
    says for which paths [open(path, "r")] is permitted and [may_write] for
    which paths [open(path, "w")] is.  With [all_permitted] these
    computations are the ones above. *)
Record Modes := {
  may_read : string -> bool;
  may_write : string -> bool;
}.

Definition all_permitted : Modes :=
  {| may_read := fun _ => true; may_write := fun _ => true |}.

(** Files that may be read and not written. *)
Definition read_only : Modes :=
  {| may_read := fun _ => true; may_write := fun _ => false |}.

Module UnderModes.

(** [with open(path, "r") as f: f.read()]: a missing file is a
    [FileNotFoundError], a file that may not be read a [PermissionError]. *)
Definition read_text (modes : Modes) (path : string) : Py string :=
  fun w =>
    match files w !! path with
    | Some c =>
        if may_read modes path then (Return (universal_newlines c), w)
        else (Raise (PermissionError path), w)
    | None => (Raise (FileNotFoundError path), w)
    end.

(** [with open(path, "w") as f: f.write(text)]: when the file may not be
    written, [open] raises before it truncates. *)
Definition write_text (modes : Modes) (path text : string) : Py unit :=
  fun w =>
    if may_write modes path then
      (Return tt, with_files (<[path := text]> (files w)) w)
    else (Raise (PermissionError path), w).

(** [LinuxEnvironmentVariableManager.remove_variable_from_shell_rc] *)
Definition remove_variable_from_shell_rc (modes : Modes)
    (rc_file key : string) : Py unit :=
  record (CallDelete key);;
  try_except
    (text ← read_text modes rc_file;
     let lines := readlines text in
     write_text modes rc_file
       (join (List.filter
                (fun line => negb (startswith line ("export " +:+ key +:+ "=")))
                lines));;
     print ("Environment variable " +:+ key +:+ " removed from "
            +:+ rc_file +:+ "."))
    (fun e => emit (SayExn "Error removing variable from shell rc: " e)).

End UnderModes.

(** * Properties *)

(** ** Python strings on examples *)

Example startswith_ex : startswith "export A=1" "export " = true.
Proof. reflexivity. Qed.

Example contains_ex : contains "zsh" "/usr/bin/zsh" = true /\ contains "zsh" "/bin/bash" = false.
Proof. split; reflexivity. Qed.

Example strip_ex : strip ("  a b " +:+ chr LF) = "a b".
Proof. reflexivity. Qed.

Example strip_chars_ex :
  strip_chars (chr DQUOTE) (chr DQUOTE +:+ chr DQUOTE +:+ "x" +:+ chr DQUOTE) = "x".
Proof. reflexivity. Qed.

Example split_once_ex : split_once "=" "A=b=c" = ("A", "b=c").
Proof. reflexivity. Qed.

Example split_ex : split "," "A, B,,C" = ["A"; " B"; ""; "C"].
Proof. reflexivity. Qed.

Example lower_ex : lower "AlL" = "all".
Proof. reflexivity. Qed.

Example readlines_ex :
  readlines ("a" +:+ chr LF +:+ chr LF +:+ "b") = ["a" +:+ chr LF; chr LF; "b"].
Proof. reflexivity. Qed.

Example universal_newlines_ex :
  universal_newlines ("a" +:+ chr CR +:+ chr LF +:+ "b" +:+ chr CR) =
  "a" +:+ chr LF +:+ "b" +:+ chr LF.
Proof. reflexivity. Qed.

(** ** Lemmas on Python strings *)

Lemma app_empty_r (s : string) : s +:+ "" = s.
Proof. induction s as [|c s IH]; simpl; [reflexivity | now rewrite IH]. Qed.

Lemma str_app_assoc (s t u : string) : (s +:+ t) +:+ u = s +:+ (t +:+ u).
Proof. induction s as [|c s IH]; simpl; [reflexivity | now rewrite IH]. Qed.

Lemma startswith_empty (s : string) : startswith s "" = true.
Proof. destruct s; reflexivity. Qed.

Lemma startswith_app (p s : string) : startswith (p +:+ s) p = true.
Proof.
  induction p as [|c p IH]; simpl.
  - apply startswith_empty.
  - rewrite Ascii.eqb_refl. exact IH.
Qed.

Lemma contains_startswith (p s : string) :
  startswith s p = true -> contains p s = true.
Proof. intros H. destruct s; simpl in *; rewrite H; reflexivity. Qed.

Lemma contains_cons (p : string) (c : ascii) (s : string) :
  contains p s = true -> contains p (String c s) = true.
Proof. intros H. simpl. rewrite H. apply orb_true_r. Qed.

Lemma contains_app_l (p a s : string) :
  contains p s = true -> contains p (a +:+ s) = true.
Proof.
  intros H. induction a as [|c a IH]; simpl; [exact H |].
  change (startswith (String c (a +:+ s)) p || contains p (a +:+ s) = true).
  rewrite IH. apply orb_true_r.
Qed.

Lemma char_in_app (c : ascii) (s t : string) :
  char_in c (s +:+ t) = char_in c s || char_in c t.
Proof.
  induction s as [|d s IH]; simpl; [reflexivity |].
  rewrite IH. apply orb_assoc.
Qed.

Lemma split_once_app (sep : ascii) (a b : string) :
  char_in sep a = false ->
  split_once sep (a +:+ String sep b) = (a, b).
Proof.
  induction a as [|c a IH]; simpl; intros H.
  - rewrite Ascii.eqb_refl. reflexivity.
  - apply orb_false_elim in H as [H1 H2].
    rewrite Ascii.eqb_sym, H1, (IH H2). reflexivity.
Qed.

(** *** Stripping *)

Lemma rstrip_by_app_keep (f : ascii -> bool) (a : string) (c : ascii) (b : string) :
  f c = false ->
  rstrip_by f (a +:+ String c b) = a +:+ String c (rstrip_by f b).
Proof.
  intros Hc. induction a as [|x a IH]; simpl.
  - destruct (rstrip_by f b); [rewrite Hc |]; reflexivity.
  - rewrite IH. destruct a; reflexivity.
Qed.

Lemma lstrip_by_keep (f : ascii -> bool) (s : string) :
  head_is f s = false -> lstrip_by f s = s.
Proof. destruct s; simpl; intros H; [reflexivity | now rewrite H]. Qed.

Lemma rstrip_by_keep (f : ascii -> bool) (s : string) :
  last_is f s = false -> rstrip_by f s = s.
Proof.
  induction s as [|c r IH]; [reflexivity |].
  destruct r as [|d r'].
  - simpl. intros ->. reflexivity.
  - intros H. change (last_is f (String d r') = false) in H.
    change (match rstrip_by f (String d r') with
            | "" => if f c then "" else chr c
            | String _ _ as r0 => String c r0
            end = String c (String d r')).
    rewrite (IH H). reflexivity.
Qed.

Lemma rstrip_by_idem (f : ascii -> bool) (s : string) :
  rstrip_by f (rstrip_by f s) = rstrip_by f s.
Proof.
  induction s as [|c r IH]; [reflexivity |].
  simpl. destruct (rstrip_by f r) as [|d r'] eqn:E.
  - destruct (f c) eqn:Hc; simpl; [reflexivity | now rewrite Hc].
  - change (match rstrip_by f (String d r') with
            | "" => if f c then "" else chr c
            | String _ _ as r0 => String c r0
            end = String c (String d r')).
    rewrite IH. reflexivity.
Qed.

Lemma lstrip_rstrip_comm (f : ascii -> bool) (s : string) :
  lstrip_by f (rstrip_by f s) = rstrip_by f (lstrip_by f s).
Proof.
  induction s as [|c r IH]; [reflexivity |].
  destruct (f c) eqn:Hc.
  - simpl. rewrite Hc, <- IH.
    destruct (rstrip_by f r); simpl; [reflexivity | now rewrite Hc].
  - rewrite (lstrip_by_keep f (String c r)) by (simpl; exact Hc).
    apply lstrip_by_keep. simpl.
    destruct (rstrip_by f r); [rewrite Hc |]; simpl; exact Hc.
Qed.

Lemma strip_by_rstrip (f : ascii -> bool) (s : string) :
  strip_by f (rstrip_by f s) = strip_by f s.
Proof.
  unfold strip_by. now rewrite lstrip_rstrip_comm, rstrip_by_idem.
Qed.

Lemma lstrip_by_spec (f : ascii -> bool) (s : string) :
  exists a, s = a +:+ lstrip_by f s /\ all_chars f a = true /\
            head_is f (lstrip_by f s) = false.
Proof.
  induction s as [|c r (a & Ha & Hall & Hh)].
  - exists "". repeat split.
  - simpl. destruct (f c) eqn:Hc.
    + exists (String c a). simpl. rewrite Hc, Hall, <- Ha. repeat split. exact Hh.
    + exists "". simpl. repeat split. exact Hc.
Qed.

Lemma rstrip_by_spec (f : ascii -> bool) (s : string) :
  exists b, s = rstrip_by f s +:+ b /\ all_chars f b = true /\
            last_is f (rstrip_by f s) = false.
Proof.
  induction s as [|c r (b & Hb & Hall & Hl)].
  - exists "". repeat split.
  - simpl. destruct (rstrip_by f r) as [|d r'] eqn:E.
    + simpl in Hb. subst b. destruct (f c) eqn:Hc.
      * exists (String c r). simpl. rewrite Hc, Hall. repeat split.
      * exists r. simpl. repeat split; assumption.
    + exists b. simpl. rewrite Hb at 1. repeat split; assumption.
Qed.

Lemma rstrip_by_head (f : ascii -> bool) (s : string) :
  head_is f s = false -> head_is f (rstrip_by f s) = false.
Proof.
  destruct s as [|c r]; [reflexivity |]. simpl. intros Hc.
  destruct (rstrip_by f r); [rewrite Hc |]; simpl; exact Hc.
Qed.

Lemma strip_by_spec (f : ascii -> bool) (s : string) :
  exists a b, s = a +:+ strip_by f s +:+ b /\
              all_chars f a = true /\ all_chars f b = true /\
              head_is f (strip_by f s) = false /\
              last_is f (strip_by f s) = false.
Proof.
  destruct (lstrip_by_spec f s) as (a & Ha & Hall & Hh).
  destruct (rstrip_by_spec f (lstrip_by f s)) as (b & Hb & Hbll & Hl).
  exists a, b. unfold strip_by. rewrite <- Hb.
  repeat split; try assumption. now apply rstrip_by_head.
Qed.

Lemma strip_by_keep (f : ascii -> bool) (s : string) :
  head_is f s = false -> last_is f s = false -> strip_by f s = s.
Proof.
  intros Hh Hl. unfold strip_by. rewrite (lstrip_by_keep _ _ Hh).
  now apply rstrip_by_keep.
Qed.

(** *** Lines *)

Lemma readlines_nonempty (c : ascii) (s : string) : readlines (String c s) <> [].
Proof.
  simpl. destruct (Ascii.eqb c LF); [discriminate |].
  destruct (readlines s); discriminate.
Qed.

Lemma terminated_cons (c : ascii) (l : string) :
  Ascii.eqb c LF = false -> terminated (String c l) = terminated l.
Proof. intros H. simpl. now rewrite H. Qed.

Lemma unterminated_cons (c : ascii) (l : string) :
  Ascii.eqb c LF = false -> unterminated l = true -> unterminated (String c l) = true.
Proof.
  unfold unterminated. intros H Hl. apply andb_prop in Hl as [_ Hl].
  simpl. now rewrite Ascii.eqb_sym, H.
Qed.

Lemma lines_ok_tail (l : string) (ls : list string) :
  lines_ok (l :: ls) = true -> lines_ok ls = true.
Proof.
  destruct ls as [|l' ls]; [reflexivity |].
  intros H. change (terminated l && lines_ok (l' :: ls) = true) in H.
  now apply andb_prop in H.
Qed.

Lemma lines_ok_head (l : string) (ls : list string) :
  lines_ok (l :: ls) = true ->
  terminated l = true \/ (ls = [] /\ unterminated l = true).
Proof.
  destruct ls as [|l' ls].
  - simpl. intros H. apply orb_prop in H as [H | H]; auto.
  - intros H. change (terminated l && lines_ok (l' :: ls) = true) in H.
    apply andb_prop in H. tauto.
Qed.

Lemma lines_ok_cons (l : string) (ls : list string) :
  terminated l = true -> lines_ok ls = true -> lines_ok (l :: ls) = true.
Proof.
  intros Hl Hls. destruct ls as [|l' ls].
  - simpl. now rewrite Hl.
  - change (terminated l && lines_ok (l' :: ls) = true). now rewrite Hl, Hls.
Qed.

Lemma readlines_ok (s : string) : lines_ok (readlines s) = true.
Proof.
  induction s as [|c s IH]; [reflexivity |].
  simpl. destruct (Ascii.eqb c LF) eqn:Hc.
  - apply lines_ok_cons; [| exact IH].
    unfold chr. simpl. now rewrite Hc.
  - destruct (readlines s) as [|l ls] eqn:E.
    + simpl. unfold unterminated. simpl.
      rewrite Hc, Ascii.eqb_sym, Hc. reflexivity.
    + destruct (lines_ok_head _ _ IH) as [Ht | [-> Hu]].
      * apply lines_ok_cons; [| exact (lines_ok_tail _ _ IH)].
        now rewrite terminated_cons.
      * simpl. rewrite (unterminated_cons _ _ Hc Hu). apply orb_true_r.
Qed.

Lemma join_readlines (s : string) : join (readlines s) = s.
Proof.
  induction s as [|c s IH]; [reflexivity |].
  simpl. destruct (Ascii.eqb c LF) eqn:Hc.
  - simpl. now rewrite IH.
  - destruct (readlines s) as [|l ls] eqn:E; simpl in *; now rewrite <- IH.
Qed.

Lemma readlines_terminated (l t : string) :
  terminated l = true -> readlines (l +:+ t) = l :: readlines t.
Proof.
  induction l as [|c l IH]; [discriminate |].
  simpl. destruct (Ascii.eqb c LF) eqn:Hc.
  - intros H. apply String.eqb_eq in H. subst l. reflexivity.
  - intros H. rewrite (IH H). reflexivity.
Qed.

Lemma readlines_unterminated (l : string) :
  unterminated l = true -> readlines l = [l].
Proof.
  unfold unterminated. induction l as [|c l IH]; [discriminate |].
  simpl. intros H. apply negb_true_iff, orb_false_elim in H as [H1 H2].
  rewrite Ascii.eqb_sym, H1.
  destruct l as [|d l]; [reflexivity |].
  rewrite IH; [reflexivity |]. simpl in *. now rewrite H2.
Qed.

Lemma readlines_join (ls : list string) :
  lines_ok ls = true -> readlines (join ls) = ls.
Proof.
  induction ls as [|l ls IH]; [reflexivity |].
  intros H. simpl. destruct (lines_ok_head _ _ H) as [Ht | [-> Hu]].
  - rewrite (readlines_terminated _ _ Ht), IH; [reflexivity |].
    exact (lines_ok_tail _ _ H).
  - simpl. rewrite app_empty_r. now apply readlines_unterminated.
Qed.

Lemma lines_ok_filter (P : string -> bool) (ls : list string) :
  lines_ok ls = true -> lines_ok (List.filter P ls) = true.
Proof.
  induction ls as [|l ls IH]; [reflexivity |].
  intros H. specialize (IH (lines_ok_tail _ _ H)).
  simpl. destruct (P l); [| exact IH].
  destruct (lines_ok_head _ _ H) as [Ht | [-> Hu]].
  - now apply lines_ok_cons.
  - exact H.
Qed.

Lemma startswith_terminated (l t p : string) :
  terminated l = true -> char_in LF p = false ->
  startswith (l +:+ t) p = startswith l p.
Proof.
  revert p. induction l as [|c l IH]; [discriminate |].
  intros [|a p] Ht Hp; [reflexivity |].
  simpl in *. apply orb_false_elim in Hp as [Ha Hp].
  destruct (Ascii.eqb c LF) eqn:Hc.
  - apply Ascii.eqb_eq in Hc. subst c.
    rewrite Ascii.eqb_sym, Ha. reflexivity.
  - rewrite (IH p Ht Hp). reflexivity.
Qed.

Lemma contains_terminated (l t p : string) :
  terminated l = true -> char_in LF p = false ->
  contains p (l +:+ t) = contains p l || contains p t.
Proof.
  intros Ht Hp. induction l as [|c l IH]; [discriminate |].
  change (startswith (String c l +:+ t) p || contains p (l +:+ t) =
          (startswith (String c l) p || contains p l) || contains p t).
  rewrite (startswith_terminated _ t p Ht Hp).
  simpl in Ht. destruct (Ascii.eqb c LF) eqn:Hc.
  - apply String.eqb_eq in Ht. subst l. simpl.
    destruct p as [|a p]; [destruct t; reflexivity |].
    simpl. rewrite orb_false_r. reflexivity.
  - rewrite (IH Ht). now rewrite orb_assoc.
Qed.

Lemma contains_join (p : string) (ls : list string) :
  p <> "" -> char_in LF p = false -> lines_ok ls = true ->
  contains p (join ls) = true ->
  exists l, In l ls /\ contains p l = true.
Proof.
  intros Hne Hp. induction ls as [|l ls IH]; intros Hok H.
  - simpl in H. destruct p; [contradiction | discriminate].
  - simpl in H. destruct (lines_ok_head _ _ Hok) as [Ht | [-> Hu]].
    + rewrite (contains_terminated _ _ _ Ht Hp) in H.
      apply orb_prop in H as [H | H].
      * exists l. split; [now left | exact H].
      * destruct (IH (lines_ok_tail _ _ Hok) H) as (l' & Hin & Hl').
        exists l'. split; [now right | exact Hl'].
    + simpl in H. rewrite app_empty_r in H.
      exists l. split; [now left | exact H].
Qed.

(** *** Universal newlines *)

Lemma universal_newlines_cr_lf (r : string) :
  universal_newlines (String CR (String LF r)) = String LF (universal_newlines r).
Proof. reflexivity. Qed.

Lemma universal_newlines_cr_other (d : ascii) (r : string) :
  Ascii.eqb d LF = false ->
  universal_newlines (String CR (String d r)) =
  String LF (universal_newlines (String d r)).
Proof.
  intros H. cbn [universal_newlines]. rewrite Ascii.eqb_refl, H. reflexivity.
Qed.

Lemma universal_newlines_other (c : ascii) (r : string) :
  Ascii.eqb c CR = false ->
  universal_newlines (String c r) = String c (universal_newlines r).
Proof. intros H. cbn [universal_newlines]. now rewrite H. Qed.

Lemma universal_newlines_no_cr_upto (n : nat) (s : string) :
  String.length s <= n -> char_in CR (universal_newlines s) = false.
Proof.
  revert s. induction n as [|n IH]; intros [|c s] Hlen; try reflexivity.
  - simpl in Hlen. lia.
  - simpl in Hlen. destruct (Ascii.eqb c CR) eqn:Hc.
    + apply Ascii.eqb_eq in Hc. subst c.
      destruct s as [|d s']; [reflexivity |].
      destruct (Ascii.eqb d LF) eqn:Hd.
      * apply Ascii.eqb_eq in Hd. subst d. rewrite universal_newlines_cr_lf.
        cbn [char_in]. rewrite IH by (simpl in *; lia). reflexivity.
      * rewrite (universal_newlines_cr_other _ _ Hd).
        cbn [char_in]. rewrite IH by (simpl in *; lia). reflexivity.
    + rewrite (universal_newlines_other _ _ Hc).
      cbn [char_in]. rewrite Ascii.eqb_sym, Hc. apply IH. lia.
Qed.

Lemma universal_newlines_no_cr (s : string) :
  char_in CR (universal_newlines s) = false.
Proof. now apply (universal_newlines_no_cr_upto (String.length s)). Qed.

Lemma universal_newlines_id (s : string) :
  char_in CR s = false -> universal_newlines s = s.
Proof.
  induction s as [|c s IH]; [reflexivity |].
  simpl. intros H. apply orb_false_elim in H as [H1 H2].
  rewrite Ascii.eqb_sym, H1, (IH H2). reflexivity.
Qed.

Lemma universal_newlines_app_lf_upto (n : nat) (a t : string) :
  String.length a <= n ->
  exists x, universal_newlines (a +:+ String LF t) =
            x +:+ String LF (universal_newlines t).
Proof.
  revert a. induction n as [|n IH]; intros [|c a] Hlen.
  - exists "". reflexivity.
  - simpl in Hlen. lia.
  - exists "". reflexivity.
  - simpl in Hlen. cbn [String.append]. destruct (Ascii.eqb c CR) eqn:Hc.
    + apply Ascii.eqb_eq in Hc. subst c. destruct a as [|d a'].
      * exists "". reflexivity.
      * cbn [String.append]. destruct (Ascii.eqb d LF) eqn:Hd.
        -- apply Ascii.eqb_eq in Hd. subst d.
           destruct (IH a') as [x Hx]; [simpl in *; lia |].
           exists (String LF x). rewrite universal_newlines_cr_lf, Hx. reflexivity.
        -- destruct (IH (String d a')) as [x Hx]; [simpl in *; lia |].
           exists (String LF x). rewrite (universal_newlines_cr_other _ _ Hd).
           cbn [String.append] in Hx. rewrite Hx. reflexivity.
    + destruct (IH a) as [x Hx]; [lia |].
      exists (String c x). rewrite (universal_newlines_other _ _ Hc), Hx.
      reflexivity.
Qed.

Lemma universal_newlines_app_lf (a t : string) :
  exists x, universal_newlines (a +:+ String LF t) =
            x +:+ String LF (universal_newlines t).
Proof. now apply (universal_newlines_app_lf_upto (String.length a)). Qed.

Lemma char_in_join (c : ascii) (ls : list string) :
  (forall l, In l ls -> char_in c l = false) -> char_in c (join ls) = false.
Proof.
  induction ls as [|l ls IH]; intros H; [reflexivity |].
  simpl. rewrite char_in_app, (H l (or_introl eq_refl)), IH; [reflexivity |].
  intros l' Hl'. apply H. now right.
Qed.

Lemma char_in_line (c : ascii) (ls : list string) (l : string) :
  char_in c (join ls) = false -> In l ls -> char_in c l = false.
Proof.
  induction ls as [|l' ls IH]; intros H Hin; [destruct Hin |].
  simpl in H. rewrite char_in_app in H. apply orb_false_elim in H as [H1 H2].
  destruct Hin as [-> | Hin]; [exact H1 | now apply IH].
Qed.

(** A rewritten profile reads back as the lines that were written. *)
Lemma readlines_rewritten (P : string -> bool) (c : string) :
  readlines (universal_newlines
               (join (List.filter P (readlines (universal_newlines c))))) =
  List.filter P (readlines (universal_newlines c)).
Proof.
  rewrite universal_newlines_id.
  - apply readlines_join, lines_ok_filter, readlines_ok.
  - apply char_in_join. intros l Hl. apply filter_In in Hl as [Hl _].
    apply (char_in_line CR (readlines (universal_newlines c))); [| exact Hl].
    rewrite join_readlines. apply universal_newlines_no_cr.
Qed.

(** The text after the last line break is the last line. *)
Lemma readlines_app_lf (x t : string) :
  readlines (x +:+ String LF t) = readlines (x +:+ chr LF) ++ readlines t.
Proof.
  induction x as [|c x IH]; [reflexivity |].
  cbn [String.append readlines].
  destruct (Ascii.eqb c LF); [now rewrite IH |].
  rewrite IH. destruct (readlines (x +:+ chr LF)) as [|l ls] eqn:E.
  - exfalso. destruct x; [discriminate E | now apply readlines_nonempty in E].
  - reflexivity.
Qed.

Lemma readlines_last_line (old tail : string) :
  tail <> "" -> char_in LF tail = false -> char_in CR tail = false ->
  exists ls,
    readlines (universal_newlines (old +:+ String LF tail)) = ls ++ [tail].
Proof.
  intros Hne Hlf Hcr. destruct (universal_newlines_app_lf old tail) as [x Hx].
  rewrite Hx, (universal_newlines_id _ Hcr), readlines_app_lf.
  exists (readlines (x +:+ chr LF)). f_equal.
  apply readlines_unterminated. unfold unterminated.
  rewrite Hlf. apply String.eqb_neq in Hne. now rewrite Hne.
Qed.

(** ** What the methods compute *)

Ltac py_unfold :=
  unfold mbind, py_bind, bind, mret, py_ret, ret, raise, try_except,
    try_except_2, try_except_cls, print, input, emit, record, readline,
    os_path_exists, os_path_expanduser, read_text, write_text, append_text,
    platform_system, os_environ_get.

Lemma get_shell_rc_file_run (w : World) :
  EnvironmentVariableManager.get_shell_rc_file w = (Return (selected_rc w), w).
Proof.
  unfold EnvironmentVariableManager.get_shell_rc_file, selected_rc. py_unfold.
  destruct (host_platform w =? "Darwin"); [| reflexivity].
  destruct (contains "zsh" _); reflexivity.
Qed.

Lemma variable_exists_in_shell_rc_run (rc_file key : string) (w : World) :
  EnvironmentVariableManager.variable_exists_in_shell_rc rc_file key w =
  (Return match files w !! rc_file with
          | Some c => contains (export_pattern key) (universal_newlines c)
          | None => false
          end, w).
Proof.
  unfold EnvironmentVariableManager.variable_exists_in_shell_rc. py_unfold.
  destruct (files w !! rc_file) as [c|] eqn:E; cbn; [rewrite E |]; reflexivity.
Qed.

Lemma export_variables_value (keys : option (list string)) (w : World) :
  value_of (EnvironmentVariableManager.export_variables keys w) =
  Some (foldl (EnvironmentVariableManager.export_line keys) ∅
          (rc_lines (selected_rc w) w)).
Proof.
  unfold EnvironmentVariableManager.export_variables, value_of, rc_lines.
  unfold mbind at 1. unfold py_bind, bind. rewrite get_shell_rc_file_run.
  py_unfold.
  destruct (files w !! selected_rc w) as [c|] eqn:E; cbn; [rewrite E |];
    reflexivity.
Qed.

Lemma export_variables_world (keys : option (list string)) (w : World) :
  is_Some (files w !! selected_rc w) ->
  (EnvironmentVariableManager.export_variables keys w).2 = w.
Proof.
  intros [c E]. unfold EnvironmentVariableManager.export_variables.
  unfold mbind at 1. unfold py_bind, bind. rewrite get_shell_rc_file_run.
  py_unfold. rewrite E. cbn. rewrite E. reflexivity.
Qed.

Lemma remove_variable_from_shell_rc_run (rc_file key : string) (w : World) :
  LinuxEnvironmentVariableManager.remove_variable_from_shell_rc rc_file key w =
  (Return tt,
   match files w !! rc_file with
   | Some c =>
       with_stdout
         (stdout w ++
          [Say ("Environment variable " +:+ key +:+ " removed from "
                +:+ rc_file +:+ ".")])
         (with_files
            (<[rc_file :=
                 join (List.filter
                         (fun line => negb (startswith line (export_pattern key)))
                         (readlines (universal_newlines c)))]> (files w))
            (with_calls (calls w ++ [CallDelete key]) w))
   | None =>
       with_stdout
         (stdout w ++
          [SayExn "Error removing variable from shell rc: "
             (FileNotFoundError rc_file)])
         (with_calls (calls w ++ [CallDelete key]) w)
   end).
Proof.
  unfold LinuxEnvironmentVariableManager.remove_variable_from_shell_rc.
  py_unfold. cbn. destruct (files w !! rc_file) as [c|]; reflexivity.
Qed.

Lemma Linux_set_variable_run (key value system : string) (w : World) :
  LinuxEnvironmentVariableManager.set_variable key value system w =
  (Return tt,
   with_stdout
     (stdout w ++
      [Say ("Environment variable " +:+ key +:+ "=" +:+ value +:+ " added to "
            +:+ home w +:+ "/.bashrc")])
     (with_files
        (<[home w +:+ "/.bashrc" :=
             default "" (files w !! (home w +:+ "/.bashrc"))
             +:+ String LF (export_entry key value)]> (files w))
        (with_calls (calls w ++ [CallSet key value]) w))).
Proof. reflexivity. Qed.

Lemma MacOS_set_variable_run (key value system : string) (w : World) :
  MacOSenvironmentVariableManager.set_variable key value system w =
  (Return tt,
   with_stdout
     (stdout w ++
      [Say ("Environment variable " +:+ key +:+ "=" +:+ value +:+ " added to "
            +:+ home w +:+ "/.zshrc")])
     (with_files
        (<[home w +:+ "/.zshrc" :=
             default "" (files w !! (home w +:+ "/.zshrc"))
             +:+ String LF (export_entry key value)]> (files w))
        (with_calls (calls w ++ [CallSet key value]) w))).
Proof. reflexivity. Qed.

(** ** Reading one profile line *)

(** The loop body of the export, said with the vocabulary of the
    statements. *)
Lemma export_line_cases (keys : option (list string))
    (env : gmap string string) (line : string) :
  EnvironmentVariableManager.export_line keys env line =
  if wellformed_export line && passes keys (name_of line)
  then <[name_of line :=
           unquote (split_once "=" (skip 7 (strip line))).2]> env
  else env.
Proof.
  unfold EnvironmentVariableManager.export_line, wellformed_export, name_of,
    passes, unquote.
  change (String.length "export ") with 7.
  destruct (startswith (strip line) "export "); [| reflexivity].
  destruct (contains "=" (skip 7 (strip line))); [| reflexivity].
  destruct (split_once "=" (skip 7 (strip line))) as [n v].
  reflexivity.
Qed.

Lemma strip_export_entry (key raw : string) :
  strip (export_entry key raw) = export_entry key (rstrip_by isspace raw).
Proof.
  unfold strip, strip_by, export_entry.
  rewrite lstrip_by_keep by reflexivity.
  change ("export " +:+ key +:+ "=" +:+ raw)
    with ("export " +:+ (key +:+ String "=" raw)).
  rewrite <- str_app_assoc.
  rewrite rstrip_by_app_keep by reflexivity.
  rewrite str_app_assoc. reflexivity.
Qed.

Lemma contains_separator (a b : string) : contains "=" (a +:+ String "=" b) = true.
Proof.
  apply contains_app_l, contains_startswith.
  cbn [startswith]. rewrite Ascii.eqb_refl. apply startswith_empty.
Qed.

Lemma startswith_export_entry (key raw : string) :
  startswith (export_entry key raw) "export " = true.
Proof. apply (startswith_app "export "). Qed.

(** A line [export KEY=RAW] with a plain key defines KEY as the unquoted
    RAW. *)
Lemma export_line_entry (keys : option (list string))
    (env : gmap string string) (key raw : string) :
  char_in "="%char key = false -> strip key = key ->
  EnvironmentVariableManager.export_line keys env (export_entry key raw) =
  if passes keys key then <[key := unquote raw]> env else env.
Proof.
  intros Hsep Hkey. rewrite export_line_cases.
  unfold wellformed_export, name_of. rewrite strip_export_entry.
  change (skip 7 (export_entry key (rstrip_by isspace raw)))
    with (key +:+ String "=" (rstrip_by isspace raw)).
  rewrite startswith_export_entry, contains_separator, (split_once_app _ _ _ Hsep). cbn [fst snd].
  rewrite Hkey. unfold unquote, strip. rewrite strip_by_rstrip. reflexivity.
Qed.

(** ** The factory *)

(** C9: the factory is a mapping on the platform name alone: Windows gives
    the registry manager, Linux the POSIX shell manager, Darwin the macOS
    shell manager; every other name raises [ValueError] (the program's
    unsupported-platform error), no manager is constructed, and in every
    case the host is left as it was. *)
Theorem factory_maps_platform (w w' : World) :
  (get_environment_variable_manager w).2 = w /\
  (host_platform w = host_platform w' ->
   (get_environment_variable_manager w).1 =
   (get_environment_variable_manager w').1) /\
  (host_platform w = "Windows" ->
   (get_environment_variable_manager w).1 = Return WindowsManager) /\
  (host_platform w = "Linux" ->
   (get_environment_variable_manager w).1 = Return LinuxManager) /\
  (host_platform w = "Darwin" ->
   (get_environment_variable_manager w).1 = Return MacOSManager) /\
  (host_platform w <> "Windows" -> host_platform w <> "Linux" ->
   host_platform w <> "Darwin" ->
   (get_environment_variable_manager w).1 =
     Raise (ValueError ("Unsupported operating system: " +:+ host_platform w)) /\
   value_of (get_environment_variable_manager w) = None).
Proof.
  unfold get_environment_variable_manager, value_of. py_unfold.
  split; [| split; [| split; [| split; [| split]]]].
  - destruct (host_platform w =? "Windows"); [reflexivity |].
    destruct (host_platform w =? "Linux"); [reflexivity |].
    destruct (host_platform w =? "Darwin"); reflexivity.
  - intros <-.
    destruct (host_platform w =? "Windows"); [reflexivity |].
    destruct (host_platform w =? "Linux"); [reflexivity |].
    destruct (host_platform w =? "Darwin"); reflexivity.
  - intros ->. reflexivity.
  - intros ->. reflexivity.
  - intros ->. reflexivity.
  - intros H1 H2 H3. apply String.eqb_neq in H1, H2, H3.
    rewrite H1, H2, H3. split; reflexivity.
Qed.

Lemma factory_maps_platform_witness :
  (get_environment_variable_manager linux_fresh).1 = Return LinuxManager /\
  (get_environment_variable_manager plan9).1 =
    Raise (ValueError "Unsupported operating system: Plan9") /\
  value_of (get_environment_variable_manager plan9) = None.
Proof.
  split.
  - apply (factory_maps_platform linux_fresh linux_fresh). reflexivity.
  - apply (factory_maps_platform plan9 plan9); discriminate.
Defined.

(** ** The apply flow on the scenarios *)

(** C1: on Linux, with A and B in the profile, the variables
    A = 1, B = 2, C = 3 and the explicit list [A], the flow deletes
    A only but then calls [set_variable] for A, B and C: B is not skipped.
    Its old line stays, a second line [export B=2] is appended, and the
    export reads B as [2]. *)
Theorem explicit_list_sets_unselected_key :
  let r := interactive_mode_apply vars_A_B_C linux_selects_A in
  r.1 = Return true /\
  calls r.2 =
    [CallDelete "A"; CallSet "A" "1"; CallSet "B" "2"; CallSet "C" "3"] /\
  file_after bashrc r =
    Some ("export B=0" +:+ chr LF +:+ chr LF +:+ "export A=1" +:+ chr LF
          +:+ "export B=2" +:+ chr LF +:+ "export C=3") /\
  exported "B" (EnvironmentVariableManager.export_variables None r.2) = Some "2".
Proof. vm_compute. repeat split. Qed.

(** C2: on macOS, with A in the profile and the answer [y], the flow stops
    at the first delete: the macOS manager has no
    [remove_variable_from_shell_rc], the [AttributeError] is caught nowhere,
    no delete and no set is performed and the profile keeps the old entry. *)
Theorem overwrite_all_fails_on_macos :
  let r := interactive_mode_apply [("A", "1")] macos_overwrites_all in
  value_of (get_environment_variable_manager macos_overwrites_all) =
    Some MacOSManager /\
  r.1 = Raise (AttributeError "MacOSenvironmentVariableManager"
                 "remove_variable_from_shell_rc") /\
  calls r.2 = [] /\
  file_after zshrc r = Some ("export A=0" +:+ chr LF).
Proof. vm_compute. repeat split. Qed.

(** C4: on macOS with bash as the login shell, [get_shell_rc_file] selects
    [~/.bashrc], which the existence check and the export read, while
    [set_variable] writes [~/.zshrc]: after setting K the selected profile
    does not exist, K is not found and not exported. *)
Theorem macos_set_ignores_login_shell :
  let r := set_variable MacOSManager "K" "V" "user" macos_with_bash in
  value_of (get_environment_variable_manager macos_with_bash) =
    Some MacOSManager /\
  value_of (EnvironmentVariableManager.get_shell_rc_file macos_with_bash) =
    Some bashrc /\
  file_after zshrc r = Some (chr LF +:+ "export K=V") /\
  file_after bashrc r = None /\
  value_of (EnvironmentVariableManager.variable_exists_in_shell_rc bashrc "K" r.2) =
    Some false /\
  exported "K" (EnvironmentVariableManager.export_variables None r.2) = None.
Proof. vm_compute. repeat split. Qed.

(** ** Where the stated properties fail *)

(** C3, as stated, fails: on Linux, after setting K to the value [hello]
    in double quotes, the export gives [hello] without the quotes, not the
    value that was set. *)
Lemma set_then_export_loses_quotes :
  exported "K"
    (EnvironmentVariableManager.export_variables None
       (set_variable LinuxManager "K" quoted_hello "user" linux_fresh).2) =
    Some "hello" /\
  Some "hello" <> Some quoted_hello.
Proof. split; [vm_compute; reflexivity | discriminate]. Qed.

(** C5, as stated, fails: a line that gives K the value [x] in two layers
    of double quotes exports [x], not [x] in one layer: both layers are
    removed. *)
Lemma export_removes_two_layers :
  exported "K"
    (EnvironmentVariableManager.export_variables None
       (linux_with_line ("export K=" +:+ twice_quoted_x))) = Some "x" /\
  Some "x" <> Some (chr DQUOTE +:+ "x" +:+ chr DQUOTE).
Proof. split; [vm_compute; reflexivity | discriminate]. Qed.

(** C6, as stated, fails: an indented entry [ export K=1] is found by the
    existence check and kept by the delete, so the check still succeeds
    after the delete. *)
Lemma delete_keeps_indented_entry :
  let r := remove_variable_from_shell_rc LinuxManager bashrc "K"
             (linux_with_line " export K=1") in
  r.1 = Return tt /\
  file_after bashrc r = Some (" export K=1" +:+ chr LF) /\
  value_of (EnvironmentVariableManager.variable_exists_in_shell_rc bashrc "K" r.2) =
    Some true.
Proof. vm_compute. repeat split. Qed.

(** C7, as stated, fails: for a key with a line break in it no line of the
    profile contains (or starts with) the pattern, yet the check, which
    searches the whole text, succeeds. *)
Lemma exists_finds_pattern_across_lines :
  let w := linux_with_line ("export A" +:+ chr LF +:+ "X=1") in
  rc_lines bashrc w = ["export A" +:+ chr LF; "X=1" +:+ chr LF] /\
  forallb (fun line => negb (contains (export_pattern two_line_key) line))
    (rc_lines bashrc w) = true /\
  value_of
    (EnvironmentVariableManager.variable_exists_in_shell_rc bashrc two_line_key w) =
    Some true.
Proof. vm_compute. repeat split. Qed.

(** C8, as stated, fails: on Linux the delete of a key that has no entry is
    no failure: the profile is rewritten as it was and the success message
    is printed, no diagnostic. *)
Lemma delete_of_absent_key_succeeds :
  let w := linux_with_line "export B=1" in
  let r := remove_variable_from_shell_rc LinuxManager bashrc "A" w in
  value_of (EnvironmentVariableManager.variable_exists_in_shell_rc bashrc "A" w) =
    Some false /\
  r.1 = Return tt /\
  file_after bashrc r = Some ("export B=1" +:+ chr LF) /\
  stdout r.2 = [Say "Environment variable A removed from /home/u/.bashrc."].
Proof. vm_compute. repeat split. Qed.

(** ** The export *)

Lemma export_line_lookup (keys : option (list string))
    (env : gmap string string) (line name : string) :
  is_Some (EnvironmentVariableManager.export_line keys env line !! name) <->
  is_Some (env !! name) \/
  (wellformed_export line = true /\ name_of line = name /\
   passes keys name = true).
Proof.
  rewrite export_line_cases.
  destruct (wellformed_export line) eqn:Hw; cbn [andb].
  - destruct (passes keys (name_of line)) eqn:Hp.
    + destruct (decide (name_of line = name)) as [<- | Hne].
      * rewrite lookup_insert_eq. split; [| intros _; eauto].
        intros _. right. auto.
      * rewrite lookup_insert_ne by exact Hne. split; [auto |].
        intros [H | (_ & H & _)]; [exact H | contradiction].
    + split; [auto |]. intros [H | (_ & <- & H)]; [exact H | congruence].
  - split; [auto |]. intros [H | (H & _)]; [exact H | discriminate].
Qed.

Lemma export_loop_lookup (keys : option (list string)) (ls : list string)
    (env : gmap string string) (name : string) :
  is_Some (foldl (EnvironmentVariableManager.export_line keys) env ls !! name) <->
  is_Some (env !! name) \/
  exists line, In line ls /\ wellformed_export line = true /\
               name_of line = name /\ passes keys name = true.
Proof.
  revert env. induction ls as [|l ls IH]; intros env; cbn [foldl].
  - split; [auto |]. intros [H | (line & [] & _)]. exact H.
  - rewrite IH, export_line_lookup. split.
    + intros [[H | H] | (line & Hin & H)].
      * now left.
      * right. exists l. split; [now left | exact H].
      * right. exists line. split; [now right | exact H].
    + intros [H | (line & [<- | Hin] & H)].
      * left. now left.
      * left. now right.
      * right. exists line. split; [exact Hin | exact H].
Qed.

Lemma export_line_malformed (keys : option (list string))
    (env : gmap string string) (line : string) :
  malformed_export line = true ->
  EnvironmentVariableManager.export_line keys env line = env.
Proof.
  intros H. rewrite export_line_cases. unfold malformed_export in H.
  unfold wellformed_export. apply andb_prop in H as [-> H].
  apply negb_true_iff in H. rewrite H. reflexivity.
Qed.

(** C10: the export ignores malformed export lines.  A line that, white
    space apart, starts with [export ] and has no [=] after it leaves the
    mapping as it is, wherever it stands in the profile; the export returns
    normally, prints nothing when the profile exists, and the names it
    returns are exactly the names of the well-formed [export NAME=VALUE]
    lines that pass the key filter. *)
Theorem export_ignores_malformed_lines (keys : option (list string)) (w : World) :
  (forall env line,
     malformed_export line = true ->
     EnvironmentVariableManager.export_line keys env line = env) /\
  (forall before after line,
     malformed_export line = true ->
     foldl (EnvironmentVariableManager.export_line keys) ∅
       (before ++ line :: after) =
     foldl (EnvironmentVariableManager.export_line keys) ∅ (before ++ after)) /\
  (is_Some (files w !! selected_rc w) ->
   (EnvironmentVariableManager.export_variables keys w).2 = w) /\
  exists env,
    (EnvironmentVariableManager.export_variables keys w).1 = Return env /\
    env = foldl (EnvironmentVariableManager.export_line keys) ∅
            (rc_lines (selected_rc w) w) /\
    forall name,
      is_Some (env !! name) <->
      exists line,
        In line (rc_lines (selected_rc w) w) /\
        wellformed_export line = true /\ name_of line = name /\
        passes keys name = true.
Proof.
  split; [| split; [| split]].
  - intros env line. apply export_line_malformed.
  - intros before after line H.
    rewrite !foldl_app. cbn [foldl]. now rewrite export_line_malformed.
  - apply export_variables_world.
  - pose proof (export_variables_value keys w) as Hv. unfold value_of in Hv.
    destruct (EnvironmentVariableManager.export_variables keys w).1 as [env|e];
      [| discriminate].
    injection Hv as ->. eexists. split; [reflexivity |]. split; [reflexivity |].
    intros name. rewrite export_loop_lookup. rewrite lookup_empty.
    split; [intros [[x Hx] | H]; [discriminate | exact H] | auto].
Qed.

Lemma export_ignores_malformed_lines_witness :
  EnvironmentVariableManager.export_line None ∅ ("  export PATH" +:+ chr LF) = ∅.
Proof.
  apply (export_ignores_malformed_lines None linux_fresh). reflexivity.
Defined.

(** ** Quotes and white space on read *)

Lemma all_chars_weaken (f g : ascii -> bool) (s : string) :
  (forall c, f c = true -> g c = true) ->
  all_chars f s = true -> all_chars g s = true.
Proof.
  intros Hfg. induction s as [|c s IH]; [reflexivity |].
  simpl. intros H. apply andb_prop in H as [H1 H2].
  now rewrite (Hfg c H1), (IH H2).
Qed.

(** What [unquote] takes away: white space, then double quotes, then single
    quotes, as many as there are at each end; what is left has no single
    quote at either end, and had no double quote outside the single ones. *)
Lemma unquote_spec (raw : string) :
  exists ws1 dq1 sq1 sq2 dq2 ws2,
    raw = ws1 +:+ (dq1 +:+ (sq1 +:+ unquote raw +:+ sq2) +:+ dq2) +:+ ws2 /\
    all_chars isspace ws1 = true /\ all_chars isspace ws2 = true /\
    all_chars (fun c => char_in c (chr DQUOTE)) dq1 = true /\
    all_chars (fun c => char_in c (chr DQUOTE)) dq2 = true /\
    all_chars (fun c => char_in c (chr SQUOTE)) sq1 = true /\
    all_chars (fun c => char_in c (chr SQUOTE)) sq2 = true /\
    head_is (fun c => char_in c (chr SQUOTE)) (unquote raw) = false /\
    last_is (fun c => char_in c (chr SQUOTE)) (unquote raw) = false /\
    head_is (fun c => char_in c (chr DQUOTE)) (sq1 +:+ unquote raw +:+ sq2) = false /\
    last_is (fun c => char_in c (chr DQUOTE)) (sq1 +:+ unquote raw +:+ sq2) = false.
Proof.
  unfold unquote, strip, strip_chars.
  destruct (strip_by_spec isspace raw) as (ws1 & ws2 & H1 & Hw1 & Hw2 & _ & _).
  destruct (strip_by_spec (fun c => char_in c (chr DQUOTE)) (strip_by isspace raw))
    as (dq1 & dq2 & H2 & Hd1 & Hd2 & Hdh & Hdl).
  destruct (strip_by_spec (fun c => char_in c (chr SQUOTE))
              (strip_by (fun c => char_in c (chr DQUOTE)) (strip_by isspace raw)))
    as (sq1 & sq2 & H3 & Hs1 & Hs2 & Hsh & Hsl).
  exists ws1, dq1, sq1, sq2, dq2, ws2.
  rewrite <- H3, <- H2, <- H1. repeat split; assumption.
Qed.

Lemma unquote_plain (value : string) :
  head_is space_or_quote value = false ->
  last_is space_or_quote value = false ->
  unquote value = value.
Proof.
  intros Hh Hl. unfold unquote, strip, strip_chars.
  assert (Hhead : forall f, (forall c, f c = true -> space_or_quote c = true) ->
                            head_is f value = false).
  { intros f Hf. destruct value as [|c v]; [reflexivity |]. simpl in *.
    destruct (f c) eqn:E; [| reflexivity]. now rewrite (Hf c E) in Hh. }
  assert (Hlast : forall f, (forall c, f c = true -> space_or_quote c = true) ->
                            last_is f value = false).
  { intros f Hf. clear Hh Hhead. induction value as [|c v IH]; [reflexivity |].
    destruct v as [|d v'].
    - simpl in *. destruct (f c) eqn:E; [| reflexivity].
      now rewrite (Hf c E) in Hl.
    - apply IH. exact Hl. }
  rewrite (strip_by_keep isspace value).
  - rewrite (strip_by_keep _ value).
    + apply strip_by_keep; [apply Hhead | apply Hlast];
        intros c E; unfold space_or_quote; rewrite E; apply orb_true_r.
    + apply Hhead. intros c E. unfold space_or_quote. rewrite E.
      rewrite orb_true_r. reflexivity.
    + apply Hlast. intros c E. unfold space_or_quote. rewrite E.
      rewrite orb_true_r. reflexivity.
  - apply Hhead. intros c E. unfold space_or_quote. now rewrite E.
  - apply Hlast. intros c E. unfold space_or_quote. now rewrite E.
Qed.

(** C5, amended: on read the export trims the value of surrounding white
    space and then removes every leading and trailing double quote and
    after them every leading and trailing single quote, matching or not
    and however many: the value [hello] in double quotes exports as
    [hello], the value [x] in two layers of double quotes as [x], and
    [hello] with an opening double quote only as [hello]. *)
Theorem export_removes_outer_quotes (keys : option (list string))
    (env : gmap string string) (key raw : string) :
  (char_in "="%char key = false -> strip key = key -> passes keys key = true ->
   EnvironmentVariableManager.export_line keys env (export_entry key raw) =
   <[key := unquote raw]> env) /\
  (exists ws1 dq1 sq1 sq2 dq2 ws2,
     raw = ws1 +:+ (dq1 +:+ (sq1 +:+ unquote raw +:+ sq2) +:+ dq2) +:+ ws2 /\
     all_chars isspace ws1 = true /\ all_chars isspace ws2 = true /\
     all_chars (fun c => char_in c (chr DQUOTE)) dq1 = true /\
     all_chars (fun c => char_in c (chr DQUOTE)) dq2 = true /\
     all_chars (fun c => char_in c (chr SQUOTE)) sq1 = true /\
     all_chars (fun c => char_in c (chr SQUOTE)) sq2 = true /\
     head_is (fun c => char_in c (chr SQUOTE)) (unquote raw) = false /\
     last_is (fun c => char_in c (chr SQUOTE)) (unquote raw) = false /\
     head_is (fun c => char_in c (chr DQUOTE)) (sq1 +:+ unquote raw +:+ sq2) = false /\
     last_is (fun c => char_in c (chr DQUOTE)) (sq1 +:+ unquote raw +:+ sq2) = false) /\
  exported "K"
    (EnvironmentVariableManager.export_variables None
       (linux_with_line ("export K=" +:+ quoted_hello))) = Some "hello" /\
  exported "K"
    (EnvironmentVariableManager.export_variables None
       (linux_with_line ("export K=" +:+ twice_quoted_x))) = Some "x" /\
  exported "K"
    (EnvironmentVariableManager.export_variables None
       (linux_with_line ("export K=" +:+ chr DQUOTE +:+ "hello"))) = Some "hello".
Proof.
  split; [| split; [| split; [| split]]].
  - intros Hsep Hkey Hp. rewrite export_line_entry by assumption.
    now rewrite Hp.
  - apply unquote_spec.
  - vm_compute. reflexivity.
  - vm_compute. reflexivity.
  - vm_compute. reflexivity.
Qed.

Lemma export_removes_outer_quotes_witness :
  EnvironmentVariableManager.export_line None ∅
    (export_entry "K" (" " +:+ twice_quoted_x)) =
  <[ "K" := unquote (" " +:+ twice_quoted_x) ]> ∅.
Proof.
  apply (export_removes_outer_quotes None ∅ "K" (" " +:+ twice_quoted_x));
    reflexivity.
Defined.

(** ** Set, then export *)

Lemma export_entry_one_line (key value : string) :
  char_in LF key = false -> char_in CR key = false -> one_line value ->
  export_entry key value <> "" /\
  char_in LF (export_entry key value) = false /\
  char_in CR (export_entry key value) = false.
Proof.
  intros Hl Hc [Hvl Hvc]. unfold export_entry. split; [discriminate |].
  rewrite !char_in_app, Hl, Hc, Hvl, Hvc. split; reflexivity.
Qed.

(** After an entry was appended to the file the export reads, the unquoted
    value of that entry is what the export gives for its key. *)
Lemma export_after_append (w : World) (old key value : string) :
  plain_key key -> one_line value ->
  files w !! selected_rc w = Some (old +:+ String LF (export_entry key value)) ->
  exported key (EnvironmentVariableManager.export_variables None w) =
  Some (unquote value).
Proof.
  intros (Hsep & Hlf & Hcr & Hstrip) Hval Hfile.
  pose proof (export_variables_value None w) as Hv.
  unfold exported. unfold value_of in Hv.
  destruct (EnvironmentVariableManager.export_variables None w).1 as [env|e];
    [| discriminate].
  injection Hv as ->. unfold rc_lines. rewrite Hfile.
  destruct (export_entry_one_line key value Hlf Hcr Hval) as (Hne & Hl & Hc).
  destruct (readlines_last_line old _ Hne Hl Hc) as [ls ->].
  rewrite foldl_app. cbn [foldl].
  rewrite export_line_entry by assumption. cbn [passes].
  apply lookup_insert_eq.
Qed.


(** C3, amended: for a key without [=], line break or surrounding white
    space and a value without line break, after the shell manager that the
    factory gives has set the pair, the export without filter maps the key
    to the value stripped of surrounding white space and of the quotes at
    its ends, hence to the value itself when it has none of these at its
    ends.  This holds on Linux over every profile, and on macOS when the
    login shell names zsh. *)
Theorem set_then_export (w : World) (m : Manager) (key value : string) :
  value_of (get_environment_variable_manager w) = Some m ->
  m <> WindowsManager ->
  (m = MacOSManager ->
   contains "zsh" (default "" (host_environ w !! "SHELL")) = true) ->
  plain_key key -> one_line value ->
  exported key
    (EnvironmentVariableManager.export_variables None
       (set_variable m key value "user" w).2) = Some (unquote value) /\
  (head_is space_or_quote value = false ->
   last_is space_or_quote value = false ->
   exported key
     (EnvironmentVariableManager.export_variables None
        (set_variable m key value "user" w).2) = Some value).
Proof.
  intros Hm Hwin Hzsh Hkey Hval.
  assert (H : exported key
                (EnvironmentVariableManager.export_variables None
                   (set_variable m key value "user" w).2) =
              Some (unquote value)).
  { unfold get_environment_variable_manager, value_of in Hm.
    revert Hm. py_unfold.
    destruct (host_platform w =? "Windows") eqn:E1.
    { intros [= <-]. contradiction. }
    destruct (host_platform w =? "Linux") eqn:E2.
    - intros [= <-]. cbn [set_variable].
      rewrite Linux_set_variable_run. cbn [snd].
      apply String.eqb_eq in E2.
      apply (export_after_append _
               (default "" (files w !! (home w +:+ "/.bashrc"))));
        [assumption | assumption |].
      unfold selected_rc. cbn. rewrite E2. cbn.
      apply lookup_insert_eq.
    - destruct (host_platform w =? "Darwin") eqn:E3; [| discriminate].
      intros [= <-]. cbn [set_variable].
      rewrite MacOS_set_variable_run. cbn [snd].
      apply (export_after_append _
               (default "" (files w !! (home w +:+ "/.zshrc"))));
        [assumption | assumption |].
      unfold selected_rc. cbn. rewrite E3, (Hzsh eq_refl).
      apply lookup_insert_eq. }
  split; [exact H |].
  intros Hh Hl. rewrite H. f_equal. now apply unquote_plain.
Qed.

Lemma set_then_export_witness :
  exported "K"
    (EnvironmentVariableManager.export_variables None
       (set_variable LinuxManager "K" quoted_hello "user"
          (linux_with_line "export K=0")).2) = Some (unquote quoted_hello).
Proof.
  apply (set_then_export (linux_with_line "export K=0") LinuxManager "K"
           quoted_hello);
    [reflexivity | discriminate | discriminate
    | repeat split | repeat split].
Defined.

(** ** The existence check and the delete *)

Lemma export_pattern_plain (key : string) :
  char_in LF key = false ->
  export_pattern key <> "" /\ char_in LF (export_pattern key) = false.
Proof.
  intros H. unfold export_pattern. split; [discriminate |].
  rewrite !char_in_app, H. reflexivity.
Qed.

(** A pattern without line break that occurs in the text occurs in one of
    its lines. *)
Lemma contains_in_a_line (key text : string) :
  char_in LF key = false ->
  contains (export_pattern key) text = true ->
  exists line, In line (readlines text) /\
               contains (export_pattern key) line = true.
Proof.
  intros Hk H. destruct (export_pattern_plain key Hk) as [Hne Hlf].
  apply (contains_join _ _ Hne Hlf (readlines_ok text)).
  now rewrite join_readlines.
Qed.

Lemma variable_exists_false (w : World) (rc_file key : string) :
  char_in LF key = false ->
  (forall line, In line (rc_lines rc_file w) ->
                contains (export_pattern key) line = false) ->
  value_of (EnvironmentVariableManager.variable_exists_in_shell_rc rc_file key w) =
    Some false.
Proof.
  rewrite variable_exists_in_shell_rc_run. unfold value_of. cbn [fst].
  intros Hk Hlines. f_equal. unfold rc_lines in Hlines.
  destruct (files w !! rc_file) as [c|]; [| reflexivity].
  destruct (contains (export_pattern key) (universal_newlines c)) eqn:E;
    [| reflexivity].
  destruct (contains_in_a_line key _ Hk E) as (line & Hin & Hc).
  now rewrite (Hlines line Hin) in Hc.
Qed.

(** C7, amended: the existence check is a search of the whole text of the
    profile for the pattern, and changes nothing; for a key without line
    break it fails whenever no line of the profile contains the pattern. *)
Theorem exists_is_text_search (w : World) (rc_file key : string) :
  (EnvironmentVariableManager.variable_exists_in_shell_rc rc_file key w).2 = w /\
  value_of (EnvironmentVariableManager.variable_exists_in_shell_rc rc_file key w) =
    Some match files w !! rc_file with
         | Some c => contains (export_pattern key) (universal_newlines c)
         | None => false
         end /\
  (char_in LF key = false ->
   (forall line, In line (rc_lines rc_file w) ->
                 contains (export_pattern key) line = false) ->
   value_of (EnvironmentVariableManager.variable_exists_in_shell_rc rc_file key w) =
     Some false).
Proof.
  split; [| split; [| apply variable_exists_false]];
    rewrite variable_exists_in_shell_rc_run; reflexivity.
Qed.

Lemma exists_is_text_search_witness :
  value_of
    (EnvironmentVariableManager.variable_exists_in_shell_rc bashrc "A"
       (linux_with_line "export B=1")) = Some false.
Proof.
  apply (exists_is_text_search (linux_with_line "export B=1") bashrc "A");
    [reflexivity |].
  intros line [<- | []]. reflexivity.
Defined.

Lemma filter_split_length {A} (f : A -> bool) (l : list A) :
  length l =
  length (List.filter (fun x => negb (f x)) l) + length (List.filter f l).
Proof.
  induction l as [|x l IH]; [reflexivity |].
  simpl. destruct (f x); simpl; lia.
Qed.

(** What a reader finds in the profile after the delete. *)
Lemma rc_lines_after_remove (w : World) (rc_file key : string) :
  rc_lines rc_file
    (LinuxEnvironmentVariableManager.remove_variable_from_shell_rc rc_file key w).2 =
  List.filter (fun line => negb (startswith line (export_pattern key)))
    (rc_lines rc_file w).
Proof.
  rewrite remove_variable_from_shell_rc_run. cbn [snd]. unfold rc_lines.
  destruct (files w !! rc_file) as [c|] eqn:E; cbn.
  - rewrite lookup_insert_eq. apply readlines_rewritten.
  - rewrite E. reflexivity.
Qed.

(** C6, amended: the delete removes exactly the lines that start with the
    pattern, so the line count goes down by the number of these lines and
    none of them is left; the existence check then fails provided the key
    has no line break and every line of the profile that contains the
    pattern starts with it. *)
Theorem delete_then_exists (w : World) (rc_file key : string) :
  let w' := (remove_variable_from_shell_rc LinuxManager rc_file key w).2 in
  line_count rc_file w = line_count rc_file w' + length (entries rc_file key w) /\
  entries rc_file key w' = [] /\
  (char_in LF key = false ->
   (forall line, In line (rc_lines rc_file w) ->
                 contains (export_pattern key) line = true ->
                 startswith line (export_pattern key) = true) ->
   value_of (EnvironmentVariableManager.variable_exists_in_shell_rc rc_file key w') =
     Some false).
Proof.
  cbn [remove_variable_from_shell_rc]. cbv zeta.
  unfold line_count, entries. rewrite rc_lines_after_remove.
  split; [apply filter_split_length |]. split.
  - induction (rc_lines rc_file w) as [|l ls IH]; [reflexivity |].
    simpl. destruct (startswith l (export_pattern key)) eqn:E; simpl;
      [exact IH | now rewrite E].
  - intros Hk Hlines. apply variable_exists_false; [exact Hk |].
    intros line Hin. rewrite rc_lines_after_remove in Hin.
    apply filter_In in Hin as [Hin Hs]. apply negb_true_iff in Hs.
    destruct (contains (export_pattern key) line) eqn:E; [| reflexivity].
    now rewrite (Hlines line Hin E) in Hs.
Qed.

Lemma delete_then_exists_witness :
  value_of
    (EnvironmentVariableManager.variable_exists_in_shell_rc bashrc "A"
       (remove_variable_from_shell_rc LinuxManager bashrc "A"
          linux_selects_A).2) = Some false.
Proof.
  apply (delete_then_exists linux_selects_A bashrc "A"); [reflexivity |].
  intros line [<- | [<- | []]]; [reflexivity | discriminate].
Defined.

(** ** Failures of the delete *)

Lemma delete_variable_run (key system : string) (w : World) :
  WindowsEnvironmentVariableManager.delete_variable key system w =
  (Return tt,
   let w1 := with_calls (calls w ++ [CallDelete key]) w in
   if negb (host_platform w =? "Windows") then
     with_stdout
       (stdout w ++
        [SayExn "Error deleting variable: " (ModuleNotFoundError "winreg")])
       w1
   else
   match root_for system with
   | None =>
       with_stdout
         (stdout w ++
          [SayExn "Error deleting variable: "
             (ValueError "Invalid system value. Use 'user' or 'system'.")])
         w1
   | Some h =>
       if hive_all_access (hive_of h w) then
         match hive_values (hive_of h w) !! key with
         | Some _ =>
             with_stdout
               (stdout w ++
                [Say ("Environment variable " +:+ key
                      +:+ " deleted from Windows (" +:+ system +:+ ").")])
               (with_hive h
                  {| hive_values := delete key (hive_values (hive_of h w));
                     hive_all_access := hive_all_access (hive_of h w) |} w1)
         | None =>
             with_stdout
               (stdout w ++
                [SayExn "Error deleting variable: " (FileNotFoundError key)])
               w1
         end
       else
         with_stdout
           (stdout w ++
            [SayExn "Error deleting variable: "
               (PermissionError "Access is denied")])
           w1
   end).
Proof.
  unfold WindowsEnvironmentVariableManager.delete_variable,
    WindowsEnvironmentVariableManager.root_of_system, root_for,
    import_winreg, winreg_OpenKey, winreg_DeleteValue.
  py_unfold. cbn.
  destruct (host_platform w =? "Windows"); cbn; [| reflexivity].
  destruct (system =? "user"); [| destruct (system =? "system")]; cbn.
  - destruct (hive_all_access (hkcu w)) eqn:Ha; cbn; [| reflexivity].
    destruct (hive_values (hkcu w) !! key); cbn; [rewrite Ha |]; reflexivity.
  - destruct (hive_all_access (hklm w)) eqn:Ha; cbn; [| reflexivity].
    destruct (hive_values (hklm w) !! key); cbn; [rewrite Ha |]; reflexivity.
  - reflexivity.
Qed.

Lemma for_each_returns {A} (body : A -> Py unit) (l : list A) (w : World) :
  (forall x w0, (body x w0).1 = Return tt) ->
  (for_each l body w).1 = Return tt.
Proof.
  intros Hbody. revert w. induction l as [|x l IH]; intros w; [reflexivity |].
  cbn [for_each]. unfold mbind, py_bind, bind.
  specialize (Hbody x w). destruct (body x w) as [[[]|e] w0]; cbn in Hbody.
  - apply IH.
  - discriminate.
Qed.

Lemma filter_none_out (f : string -> bool) (l : list string) :
  List.filter f l = [] -> List.filter (fun x => negb (f x)) l = l.
Proof.
  induction l as [|x l IH]; [reflexivity |].
  simpl. destruct (f x); [discriminate |]. intros H. simpl. now rewrite IH.
Qed.

Lemma remove_under_modes_run (modes : Modes) (rc_file key : string) (w : World) :
  UnderModes.remove_variable_from_shell_rc modes rc_file key w =
  (Return tt,
   let w1 := with_calls (calls w ++ [CallDelete key]) w in
   match files w !! rc_file with
   | Some c =>
       if may_read modes rc_file && may_write modes rc_file then
         with_stdout
           (stdout w ++
            [Say ("Environment variable " +:+ key +:+ " removed from "
                  +:+ rc_file +:+ ".")])
           (with_files
              (<[rc_file :=
                   join (List.filter
                           (fun line => negb (startswith line (export_pattern key)))
                           (readlines (universal_newlines c)))]> (files w))
              w1)
       else
         with_stdout
           (stdout w ++
            [SayExn "Error removing variable from shell rc: "
               (PermissionError rc_file)])
           w1
   | None =>
       with_stdout
         (stdout w ++
          [SayExn "Error removing variable from shell rc: "
             (FileNotFoundError rc_file)])
         w1
   end).
Proof.
  unfold UnderModes.remove_variable_from_shell_rc, UnderModes.read_text,
    UnderModes.write_text.
  py_unfold. cbn. destruct (files w !! rc_file) as [c|]; [| reflexivity].
  destruct (may_read modes rc_file); cbn; [| reflexivity].
  destruct (may_write modes rc_file); reflexivity.
Qed.

(** With every file permitted, the delete under modes is the delete of the
    Linux manager. *)
Lemma remove_under_all_permitted (rc_file key : string) (w : World) :
  UnderModes.remove_variable_from_shell_rc all_permitted rc_file key w =
  remove_variable_from_shell_rc LinuxManager rc_file key w.
Proof.
  cbn [remove_variable_from_shell_rc].
  rewrite remove_under_modes_run, remove_variable_from_shell_rc_run.
  cbv zeta. cbn [all_permitted may_read may_write andb]. reflexivity.
Qed.

(** C8, amended: no delete raises, so the loop over the selected keys runs
    to its end, whatever the permissions of the profile.  The Linux delete
    reports a diagnostic exactly when it cannot open the profile, and then
    leaves every file as it was: a [FileNotFoundError] when the profile is
    missing, a [PermissionError] when it may not be read or may not be
    written.  When the profile is there and may be read and written the
    delete succeeds for every key, with or without entry: it prints the
    success message and keeps the lines that do not start with the
    pattern, which for a key without entry are all the lines.  With every
    file permitted it is the delete of the Linux manager of the other
    statements.  On Windows the registry delete reports a diagnostic and
    changes nothing when the value does not exist, when access is denied
    or when the scope is unknown. *)
Theorem delete_reports_and_returns (modes : Modes) (w : World)
    (rc_file key system : string) (keys : list string) :
  let r := UnderModes.remove_variable_from_shell_rc modes rc_file key w in
  let r' := delete_variable WindowsManager key system w in
  r.1 = Return tt /\ r'.1 = Return tt /\
  (for_each keys
     (fun k => UnderModes.remove_variable_from_shell_rc modes rc_file k) w).1 =
    Return tt /\
  (for_each keys (fun k => delete_variable WindowsManager k system) w).1 =
    Return tt /\
  UnderModes.remove_variable_from_shell_rc all_permitted rc_file key w =
    remove_variable_from_shell_rc LinuxManager rc_file key w /\
  (is_Some (files w !! rc_file) ->
   may_read modes rc_file = true -> may_write modes rc_file = true ->
   stdout r.2 =
     stdout w ++ [Say ("Environment variable " +:+ key +:+ " removed from "
                       +:+ rc_file +:+ ".")] /\
   rc_lines rc_file r.2 =
     List.filter (fun line => negb (startswith line (export_pattern key)))
       (rc_lines rc_file w) /\
   (entries rc_file key w = [] -> rc_lines rc_file r.2 = rc_lines rc_file w)) /\
  (files w !! rc_file = None ->
   files r.2 = files w /\
   stdout r.2 =
     stdout w ++ [SayExn "Error removing variable from shell rc: "
                    (FileNotFoundError rc_file)]) /\
  (is_Some (files w !! rc_file) ->
   may_read modes rc_file && may_write modes rc_file = false ->
   files r.2 = files w /\
   stdout r.2 =
     stdout w ++ [SayExn "Error removing variable from shell rc: "
                    (PermissionError rc_file)]) /\
  (forall h, host_platform w = "Windows" -> root_for system = Some h ->
     hive_all_access (hive_of h w) = true ->
     hive_values (hive_of h w) !! key = None ->
     hkcu r'.2 = hkcu w /\ hklm r'.2 = hklm w /\
     stdout r'.2 =
       stdout w ++ [SayExn "Error deleting variable: " (FileNotFoundError key)]) /\
  (forall h, host_platform w = "Windows" -> root_for system = Some h ->
     hive_all_access (hive_of h w) = false ->
     hkcu r'.2 = hkcu w /\ hklm r'.2 = hklm w /\
     stdout r'.2 =
       stdout w ++ [SayExn "Error deleting variable: "
                      (PermissionError "Access is denied")]) /\
  (host_platform w = "Windows" -> root_for system = None ->
   hkcu r'.2 = hkcu w /\ hklm r'.2 = hklm w /\
   stdout r'.2 =
     stdout w ++ [SayExn "Error deleting variable: "
                    (ValueError "Invalid system value. Use 'user' or 'system'.")]).
Proof.
  cbv zeta. cbn [delete_variable].
  split; [now rewrite remove_under_modes_run |].
  split; [now rewrite delete_variable_run |].
  split.
  { apply for_each_returns. intros k w0. now rewrite remove_under_modes_run. }
  split.
  { apply for_each_returns. intros k w0. now rewrite delete_variable_run. }
  split; [apply remove_under_all_permitted |].
  split.
  { intros [c Hc] Hr Hw.
    assert (Hlines :
      rc_lines rc_file
        (UnderModes.remove_variable_from_shell_rc modes rc_file key w).2 =
      List.filter (fun line => negb (startswith line (export_pattern key)))
        (rc_lines rc_file w)).
    { rewrite remove_under_modes_run. cbn [snd]. cbv zeta. unfold rc_lines.
      rewrite Hc, Hr, Hw. cbn. rewrite lookup_insert_eq.
      apply readlines_rewritten. }
    split; [| split].
    - rewrite remove_under_modes_run, Hc, Hr, Hw. reflexivity.
    - exact Hlines.
    - intros He. rewrite Hlines. now apply filter_none_out. }
  split.
  { intros Hc. rewrite remove_under_modes_run, Hc. split; reflexivity. }
  split.
  { intros [c Hc] Hd. rewrite remove_under_modes_run, Hc, Hd.
    split; reflexivity. }
  rewrite delete_variable_run. cbn [snd]. cbv zeta.
  split; [| split].
  - intros h -> -> -> ->. repeat split.
  - intros h -> -> ->. repeat split.
  - intros -> ->. repeat split.
Qed.

Lemma delete_reports_and_returns_witness :
  stdout (UnderModes.remove_variable_from_shell_rc all_permitted bashrc "A"
            linux_fresh).2 =
    stdout linux_fresh ++
    [SayExn "Error removing variable from shell rc: " (FileNotFoundError bashrc)] /\
  (files (UnderModes.remove_variable_from_shell_rc read_only bashrc "A"
            (linux_with_line "export A=1")).2 =
     files (linux_with_line "export A=1") /\
   stdout (UnderModes.remove_variable_from_shell_rc read_only bashrc "A"
             (linux_with_line "export A=1")).2 =
     stdout (linux_with_line "export A=1") ++
     [SayExn "Error removing variable from shell rc: " (PermissionError bashrc)]) /\
  stdout (UnderModes.remove_variable_from_shell_rc all_permitted bashrc "A"
            (linux_with_line "export A=1")).2 =
    stdout (linux_with_line "export A=1") ++
    [Say ("Environment variable " +:+ "A" +:+ " removed from " +:+ bashrc +:+ ".")] /\
  stdout (delete_variable WindowsManager "A" "user" windows_locked).2 =
    stdout windows_locked ++
    [SayExn "Error deleting variable: " (PermissionError "Access is denied")].
Proof.
  pose proof (delete_reports_and_returns all_permitted linux_fresh bashrc "A"
                "user" []) as H1.
  pose proof (delete_reports_and_returns read_only
                (linux_with_line "export A=1") bashrc "A" "user" []) as H2.
  pose proof (delete_reports_and_returns all_permitted
                (linux_with_line "export A=1") bashrc "A" "user" []) as H3.
  pose proof (delete_reports_and_returns all_permitted windows_locked bashrc "A"
                "user" []) as H4.
  cbv zeta in H1, H2, H3, H4.
  destruct H1 as (_ & _ & _ & _ & _ & _ & Hmissing & _).
  destruct H2 as (_ & _ & _ & _ & _ & _ & _ & Hlocked & _).
  destruct H3 as (_ & _ & _ & _ & _ & Hfree & _).
  destruct H4 as (_ & _ & _ & _ & _ & _ & _ & _ & _ & Hdenied & _).
  split; [| split; [| split]].
  - apply Hmissing. reflexivity.
  - apply Hlocked; [eexists |]; reflexivity.
  - apply Hfree; [eexists | |]; reflexivity.
  - apply (Hdenied HKEY_CURRENT_USER); reflexivity.
Defined.

(** ** The apply flow where it works *)

Lemma bind_run {A B} (m : Py A) (k : A -> Py B) (w w' : World) (a : A) :
  m w = (Return a, w') -> (m ≫= k) w = k a w'.
Proof. intros H. unfold mbind, py_bind, bind. now rewrite H. Qed.

Lemma collect_found (rc_file : string) (keys : list string) (w : World) :
  collect keys
    (fun key => EnvironmentVariableManager.variable_exists_in_shell_rc rc_file key)
    w =
  (Return (List.filter (found_in_profile w rc_file) keys), w).
Proof.
  induction keys as [|k keys IH]; [reflexivity |].
  cbn [collect].
  erewrite bind_run by apply variable_exists_in_shell_rc_run.
  erewrite bind_run by apply IH.
  unfold found_in_profile. cbn [List.filter].
  destruct (files w !! rc_file); [destruct (contains _ _) |]; reflexivity.
Qed.

Lemma same_host_refl (w : World) : same_host w w.
Proof. repeat split. Qed.

Lemma same_host_trans (w1 w2 w3 : World) :
  same_host w1 w2 -> same_host w2 w3 -> same_host w1 w3.
Proof.
  unfold same_host. intros (H1 & H2 & H3 & H4) (K1 & K2 & K3 & K4).
  rewrite K1, K2, K3, K4. auto.
Qed.

(** A loop whose body returns, leaves the host alone and records one call
    per element does so for the whole list. *)
Lemma for_each_calls {A} (body : A -> Py unit) (tr : A -> call)
    (l : list A) (w : World) :
  (forall x w0, (body x w0).1 = Return tt /\ same_host w0 (body x w0).2 /\
                calls (body x w0).2 = calls w0 ++ [tr x]) ->
  (for_each l body w).1 = Return tt /\ same_host w (for_each l body w).2 /\
  calls (for_each l body w).2 = calls w ++ map tr l.
Proof.
  intros Hbody. revert w. induction l as [|x l IH]; intros w.
  - cbn. rewrite app_nil_r. repeat split.
  - cbn [for_each map]. unfold mbind, py_bind, bind.
    destruct (Hbody x w) as (H1 & H2 & H3).
    destruct (body x w) as [[[]|e] w0]; cbn in H1, H2, H3; [| discriminate].
    destruct (IH w0) as (K1 & K2 & K3).
    split; [exact K1 |]. split; [exact (same_host_trans _ _ _ H2 K2) |].
    rewrite K3, H3, <- app_assoc. reflexivity.
Qed.

Lemma remove_step (rc_file key : string) (w : World) :
  let r := remove_variable_from_shell_rc LinuxManager rc_file key w in
  r.1 = Return tt /\ same_host w r.2 /\ calls r.2 = calls w ++ [CallDelete key].
Proof.
  cbv zeta. cbn [remove_variable_from_shell_rc].
  rewrite remove_variable_from_shell_rc_run.
  destruct (files w !! rc_file); repeat split.
Qed.

Lemma set_step (m : Manager) (key value : string) (w : World) :
  m <> WindowsManager ->
  let r := set_variable m key value "user" w in
  r.1 = Return tt /\ same_host w r.2 /\
  calls r.2 = calls w ++ [CallSet key value].
Proof.
  intros Hm. cbv zeta. destruct m; [contradiction | |]; cbn [set_variable].
  - rewrite Linux_set_variable_run. repeat split.
  - rewrite MacOS_set_variable_run. repeat split.
Qed.


Lemma factory_run (w : World) (m : Manager) :
  value_of (get_environment_variable_manager w) = Some m ->
  get_environment_variable_manager w = (Return m, w).
Proof.
  unfold get_environment_variable_manager, value_of. py_unfold.
  destruct (host_platform w =? "Windows"); [now intros [= <-] |].
  destruct (host_platform w =? "Linux"); [now intros [= <-] |].
  destruct (host_platform w =? "Darwin"); [now intros [= <-] | discriminate].
Qed.

Lemma set_loop_run (m : Manager) (env_vars : list (string * string)) (w : World) :
  m <> WindowsManager ->
  let r := for_each env_vars
             (fun '(key, value) => set_variable m key value "user") w in
  r.1 = Return tt /\ same_host w r.2 /\ calls r.2 = calls w ++ set_calls env_vars.
Proof.
  intros Hm. apply (for_each_calls _ (fun '(key, value) => CallSet key value)).
  intros [k v] w0. now apply set_step.
Qed.

(** What the loop of sets prints: one line per variable, nothing else. *)
Lemma set_loop_stdout (m : Manager) (env_vars : list (string * string))
    (w : World) :
  m <> WindowsManager ->
  stdout (for_each env_vars
            (fun '(key, value) => set_variable m key value "user") w).2 =
  stdout w ++ map (set_report m (home w)) env_vars.
Proof.
  intros Hm. revert w. induction env_vars as [|[k v] l IH]; intros w.
  - cbn. now rewrite app_nil_r.
  - cbn [for_each map]. unfold mbind, py_bind, bind.
    assert (Hstep :
      set_variable m k v "user" w =
      (Return tt, (set_variable m k v "user" w).2) /\
      home (set_variable m k v "user" w).2 = home w /\
      stdout (set_variable m k v "user" w).2 =
        stdout w ++ [set_report m (home w) (k, v)]).
    { destruct m; [contradiction | |]; cbn [set_variable].
      - rewrite Linux_set_variable_run. repeat split.
      - rewrite MacOS_set_variable_run. repeat split. }
    destruct Hstep as (Hrun & Hhome & Hout). rewrite Hrun.
    rewrite IH, Hhome, Hout, <- app_assoc. reflexivity.
Qed.

(** X2: on a shell platform, when no key of the variables is found in the
    selected profile, the flow asks nothing: it reads no line of the
    input and prints no prompt and no list of conflicts, only the one line
    of every set.  It calls no delete and calls [set_variable] once for
    every variable, in order. *)
Theorem apply_without_conflicts (w : World) (m : Manager)
    (env_vars : list (string * string)) :
  value_of (get_environment_variable_manager w) = Some m ->
  m <> WindowsManager ->
  conflict_report w env_vars = [] ->
  let r := interactive_mode_apply env_vars w in
  r.1 = Return true /\ calls r.2 = calls w ++ set_calls env_vars /\
  stdin r.2 = stdin w /\
  stdout r.2 = stdout w ++ map (set_report m (home w)) env_vars.
Proof.
  intros Hm Hwin Hnone. cbv zeta. unfold interactive_mode_apply.
  erewrite bind_run by (apply factory_run, Hm).
  erewrite bind_run by apply get_shell_rc_file_run.
  assert (Hi : isinstance_Windows m = false) by (destruct m; [contradiction | |]; reflexivity).
  rewrite Hi.
  erewrite bind_run.
  2:{ erewrite bind_run by apply get_shell_rc_file_run.
      erewrite bind_run by apply collect_found. reflexivity. }
  fold (conflict_report w env_vars). rewrite Hnone.
  erewrite bind_run by reflexivity.
  destruct (set_loop_run m env_vars w Hwin) as (H1 & (_ & _ & _ & H2) & H3).
  pose proof (set_loop_stdout m env_vars w Hwin) as H4.
  destruct (for_each env_vars _ w) as [[[]|e] w0] eqn:E; cbn in H1, H2, H3, H4;
    [| discriminate].
  erewrite bind_run by exact E.
  split; [reflexivity |]. split; [exact H3 |]. split; [exact H2 | exact H4].
Qed.

Lemma input_run (prompt answer : string) (rest : list string) (w : World) :
  stdin w = answer :: rest ->
  input prompt w =
  (Return answer, with_stdin rest (with_stdout (stdout w ++ [Prompt prompt]) w)).
Proof. intros H. unfold input. py_unfold. cbn. now rewrite H. Qed.

(** X1: on Linux, when some keys are found in the profile and the operator
    answers y or yes, the flow calls the delete for exactly the keys of the
    conflict report, in order, and after all of them [set_variable] once
    for every variable, in order. *)
Theorem apply_overwrite_all_on_linux (w : World)
    (env_vars : list (string * string)) (answer : string) (rest : list string) :
  host_platform w = "Linux" ->
  conflict_report w env_vars <> [] ->
  stdin w = answer :: rest ->
  in_list (lower (strip answer)) ["y"; "yes"] = true ->
  let r := interactive_mode_apply env_vars w in
  r.1 = Return true /\
  calls r.2 =
    calls w ++ map CallDelete (conflict_report w env_vars) ++ set_calls env_vars.
Proof.
  intros Hlinux Hsome Hin Hyes. cbv zeta. unfold interactive_mode_apply.
  assert (Hm : get_environment_variable_manager w = (Return LinuxManager, w)).
  { apply factory_run. unfold get_environment_variable_manager, value_of.
    py_unfold. now rewrite Hlinux. }
  erewrite bind_run by exact Hm.
  erewrite bind_run by apply get_shell_rc_file_run.
  cbn [isinstance_Windows].
  erewrite bind_run.
  2:{ erewrite bind_run by apply get_shell_rc_file_run.
      erewrite bind_run by apply collect_found. reflexivity. }
  fold (conflict_report w env_vars).
  destruct (conflict_report w env_vars) as [|k ks] eqn:Hreport;
    [contradiction |].
  set (w1 := with_stdin rest
               (with_stdout
                  ((stdout w ++
                    [SayList "The following variables already exist: " (k :: ks)])
                   ++ [Prompt "Do you want to overwrite all of them? (y/n): "])
                  (with_stdout
                     (stdout w ++
                      [SayList "The following variables already exist: "
                         (k :: ks)]) w))).
  destruct (for_each_calls
              (fun key => remove_variable_from_shell_rc LinuxManager
                            (selected_rc w) key)
              CallDelete (k :: ks) w1 (remove_step (selected_rc w)))
    as (H1 & H2 & H3).
  destruct (for_each (k :: ks) _ w1) as [[[]|e] w2] eqn:E2; cbn in H1, H2, H3;
    [| discriminate].
  destruct (set_loop_run LinuxManager env_vars w2 ltac:(discriminate))
    as (K1 & _ & K3).
  destruct (for_each env_vars _ w2) as [[[]|e] w3] eqn:E3; cbn in K1, K3;
    [| discriminate].
  erewrite bind_run.
  2:{ erewrite (bind_run (emit _)) by reflexivity.
      erewrite (bind_run (input _)) by (apply input_run; exact Hin).
      rewrite Hyes. cbn [negb].
      erewrite (bind_run (ret _)) by reflexivity. cbv beta iota.
      erewrite (bind_run (for_each _ _)) by exact E2. reflexivity. }
  cbv beta iota. erewrite (bind_run (for_each _ _)) by exact E3.
  split; [reflexivity |]. change (calls w3 = calls w ++ map CallDelete (k :: ks) ++ set_calls env_vars).
  rewrite K3, H3, <- app_assoc. reflexivity.
Qed.

Lemma apply_overwrite_all_on_linux_witness :
  calls (interactive_mode_apply vars_A_B_C linux_overwrites_all).2 =
  calls linux_overwrites_all ++
  map CallDelete (conflict_report linux_overwrites_all vars_A_B_C) ++
  set_calls vars_A_B_C.
Proof.
  apply (apply_overwrite_all_on_linux linux_overwrites_all vars_A_B_C "y" []);
    [reflexivity | discriminate | reflexivity | reflexivity].
Defined.

Lemma apply_without_conflicts_witness :
  calls (interactive_mode_apply vars_A_B_C macos_with_bash).2 =
    calls macos_with_bash ++ set_calls vars_A_B_C /\
  stdin (interactive_mode_apply vars_A_B_C
           (host "Linux" "/bin/bash" [(bashrc, "export Z=0")] ["y"])).2 =
    ["y"].
Proof.
  split.
  - apply (apply_without_conflicts macos_with_bash MacOSManager vars_A_B_C);
      [reflexivity | discriminate | reflexivity].
  - apply (apply_without_conflicts
             (host "Linux" "/bin/bash" [(bashrc, "export Z=0")] ["y"])
             LinuxManager vars_A_B_C);
      [reflexivity | discriminate | reflexivity].
Defined.

(** ** The key filter of the export *)

Lemma export_loop_filter (keys ls : list string)
    (env1 env2 : gmap string string) (name : string) :
  env1 !! name = (if in_list name keys then env2 !! name else None) ->
  foldl (EnvironmentVariableManager.export_line (Some keys)) env1 ls !! name =
  if in_list name keys
  then foldl (EnvironmentVariableManager.export_line None) env2 ls !! name
  else None.
Proof.
  revert env1 env2. induction ls as [|l ls IH]; intros env1 env2 H; [exact H |].
  cbn [foldl]. apply IH. rewrite !export_line_cases. cbn [passes].
  destruct (wellformed_export l); cbn [andb]; [| exact H].
  destruct (decide (name_of l = name)) as [<- | Hne].
  - destruct (in_list (name_of l) keys) eqn:E.
    + now rewrite !lookup_insert_eq.
    + exact H.
  - rewrite (lookup_insert_ne env2) by exact Hne.
    destruct (in_list (name_of l) keys); [| exact H].
    now rewrite lookup_insert_ne by exact Hne.
Qed.

(** X3: the export with a key filter gives, for every name of the filter,
    what the export without filter gives, and nothing for any other name. *)
Theorem export_filter_restricts (keys : list string) (name : string) (w : World) :
  exported name (EnvironmentVariableManager.export_variables (Some keys) w) =
  if in_list name keys
  then exported name (EnvironmentVariableManager.export_variables None w)
  else None.
Proof.
  pose proof (export_variables_value (Some keys) w) as H1.
  pose proof (export_variables_value None w) as H2.
  unfold exported. unfold value_of in H1, H2.
  destruct (EnvironmentVariableManager.export_variables (Some keys) w).1;
    [| discriminate].
  destruct (EnvironmentVariableManager.export_variables None w).1;
    [| discriminate].
  injection H1 as ->. injection H2 as ->.
  apply export_loop_filter. rewrite !lookup_empty.
  now destruct (in_list name keys).
Qed.

(** * More properties *)

(** ** Lists of keys typed by the operator *)

Lemma strip_by_idem (f : ascii -> bool) (s : string) :
  strip_by f (strip_by f s) = strip_by f s.
Proof.
  destruct (strip_by_spec f s) as (a & b & _ & _ & _ & Hh & Hl).
  now apply strip_by_keep.
Qed.

Lemma strip_by_empty (f : ascii -> bool) (s : string) :
  strip_by f s = "" <-> all_chars f s = true.
Proof.
  split.
  - intros H. destruct (strip_by_spec f s) as (a & b & Hs & Ha & Hb & _).
    rewrite H in Hs. cbn in Hs. subst s. clear H.
    induction a as [|c a IH]; [exact Hb |].
    simpl in *. apply andb_prop in Ha as [-> Ha]. now apply IH.
  - unfold strip_by. induction s as [|c s IH]; [reflexivity |].
    simpl. intros H. apply andb_prop in H as [-> H]. now apply IH.
Qed.

Lemma char_in_strip_by (f : ascii -> bool) (c : ascii) (s : string) :
  char_in c s = false -> char_in c (strip_by f s) = false.
Proof.
  intros H. destruct (strip_by_spec f s) as (a & b & Hs & _).
  rewrite Hs, !char_in_app in H.
  apply orb_false_elim in H as [_ H]. now apply orb_false_elim in H as [H _].
Qed.

Lemma split_nonempty (sep : ascii) (s : string) : split sep s <> [].
Proof.
  destruct s as [|c s]; [discriminate |]. simpl.
  destruct (Ascii.eqb c sep); [discriminate |].
  destruct (split sep s); discriminate.
Qed.

Lemma split_no_separator (sep : ascii) (s piece : string) :
  In piece (split sep s) -> char_in sep piece = false.
Proof.
  revert piece. induction s as [|c s IH]; intros piece Hin.
  - destruct Hin as [<- | []]. reflexivity.
  - simpl in Hin. destruct (Ascii.eqb c sep) eqn:Hc.
    + destruct Hin as [<- | Hin]; [reflexivity | now apply IH].
    + destruct (split sep s) as [|h t] eqn:E.
      * destruct Hin as [<- | []]. simpl.
        now rewrite Ascii.eqb_sym, Hc.
      * destruct Hin as [<- | Hin].
        -- simpl. rewrite Ascii.eqb_sym, Hc. apply IH. now left.
        -- apply IH. now right.
Qed.

Lemma split_all_space (s : string) :
  forallb (all_chars isspace) (split "," s) =
  all_chars (fun c => isspace c || Ascii.eqb c ",") s.
Proof.
  induction s as [|c s IH]; [reflexivity |].
  simpl. destruct (Ascii.eqb c ",") eqn:Hc.
  - simpl. rewrite IH, orb_true_r. reflexivity.
  - rewrite orb_false_r, <- IH.
    destruct (split "," s) as [|h t] eqn:E; [now apply split_nonempty in E |].
    simpl. now rewrite andb_assoc.
Qed.

(** X4: every key that [parse_key_list] returns is non-empty, has no white
    space at its ends and no comma in it; the list is empty exactly when
    the text has nothing but white space and commas. *)
Theorem parse_key_list_keys (text : string) :
  (forall key, In key (parse_key_list text) ->
     key <> "" /\ strip key = key /\ char_in "," key = false) /\
  (parse_key_list text = [] <->
   all_chars (fun c => isspace c || Ascii.eqb c ",") text = true).
Proof.
  unfold parse_key_list. split.
  - intros key Hin. apply in_map_iff in Hin as (piece & <- & Hin).
    apply filter_In in Hin as [Hin Hne].
    apply negb_true_iff, String.eqb_neq in Hne.
    split; [exact Hne |]. split; [apply strip_by_idem |].
    apply char_in_strip_by. now apply (split_no_separator _ text).
  - rewrite <- split_all_space.
    induction (split "," text) as [|piece l IH]; [split; reflexivity |].
    simpl. destruct (strip piece =? "") eqn:E; simpl.
    + apply String.eqb_eq, strip_by_empty in E. now rewrite E.
    + split; [discriminate |]. intros H. apply andb_prop in H as [H _].
      apply strip_by_empty in H. apply String.eqb_neq in E. contradiction.
Qed.

(** ** Appending to a profile *)

Lemma rstrip_by_app_space (f : ascii -> bool) (s : string) (c : ascii) :
  f c = true -> rstrip_by f (s +:+ chr c) = rstrip_by f s.
Proof.
  intros Hc. induction s as [|x s IH]; simpl.
  - now rewrite Hc.
  - now rewrite IH.
Qed.

Lemma strip_by_app_space (f : ascii -> bool) (s : string) (c : ascii) :
  f c = true -> strip_by f (s +:+ chr c) = strip_by f s.
Proof.
  intros Hc. unfold strip_by.
  now rewrite <- !lstrip_rstrip_comm, rstrip_by_app_space.
Qed.

Lemma export_line_closed (keys : option (list string))
    (env : gmap string string) (l : string) :
  EnvironmentVariableManager.export_line keys env (l +:+ chr LF) =
  EnvironmentVariableManager.export_line keys env l.
Proof.
  unfold EnvironmentVariableManager.export_line, strip.
  now rewrite strip_by_app_space.
Qed.

Lemma terminated_closed (l : string) :
  unterminated l = true -> terminated (l +:+ chr LF) = true.
Proof.
  unfold unterminated. induction l as [|c l IH]; [discriminate |].
  simpl. intros H. apply negb_true_iff, orb_false_elim in H as [H1 H2].
  rewrite Ascii.eqb_sym, H1. destruct l as [|d l]; [reflexivity |].
  apply IH. simpl in *. now rewrite H2.
Qed.

Lemma readlines_one_terminated (l : string) :
  terminated l = true -> readlines l = [l].
Proof.
  intros H. rewrite <- (app_empty_r l) at 1.
  now rewrite (readlines_terminated l "" H).
Qed.

Lemma readlines_closed (ls : list string) :
  lines_ok ls = true -> readlines (join ls +:+ chr LF) = close_last ls.
Proof.
  induction ls as [|l ls IH]; [reflexivity |].
  intros Hok. destruct ls as [|l' ls].
  - cbn [join close_last]. rewrite app_empty_r.
    destruct (terminated l) eqn:Ht.
    + now rewrite (readlines_terminated l _ Ht).
    + simpl in Hok. rewrite Ht in Hok. simpl in Hok.
      now apply readlines_one_terminated, terminated_closed.
  - destruct (lines_ok_head _ _ Hok) as [Ht | [[=] _]].
    change (join (l :: l' :: ls)) with (l +:+ join (l' :: ls)).
    rewrite str_app_assoc, (readlines_terminated l _ Ht), IH;
      [reflexivity | exact (lines_ok_tail _ _ Hok)].
Qed.

Lemma export_loop_closed (keys : option (list string)) (ls : list string)
    (env : gmap string string) :
  foldl (EnvironmentVariableManager.export_line keys) env (close_last ls) =
  foldl (EnvironmentVariableManager.export_line keys) env ls.
Proof.
  revert env. induction ls as [|l ls IH]; intros env; [reflexivity |].
  destruct ls as [|l' ls].
  - cbn [close_last]. destruct (terminated l); cbn [foldl];
      [reflexivity | apply export_line_closed].
  - change (close_last (l :: l' :: ls)) with (l :: close_last (l' :: ls)).
    cbn [foldl]. apply IH.
Qed.

Lemma universal_newlines_app_lf_cases_upto (n : nat) (a t : string) :
  String.length a <= n ->
  exists x, universal_newlines (a +:+ String LF t) =
            x +:+ String LF (universal_newlines t) /\
            (universal_newlines a = x \/ universal_newlines a = x +:+ chr LF).
Proof.
  revert a. induction n as [|n IH]; intros [|c a] Hlen.
  - exists "". split; [reflexivity | now left].
  - simpl in Hlen. lia.
  - exists "". split; [reflexivity | now left].
  - simpl in Hlen. cbn [String.append]. destruct (Ascii.eqb c CR) eqn:Hc.
    + apply Ascii.eqb_eq in Hc. subst c. destruct a as [|d a'].
      * exists "". split; [reflexivity | now right].
      * cbn [String.append]. destruct (Ascii.eqb d LF) eqn:Hd.
        -- apply Ascii.eqb_eq in Hd. subst d.
           destruct (IH a') as (x & Hx & Hcase); [simpl in *; lia |].
           exists (String LF x). rewrite !universal_newlines_cr_lf, Hx.
           split; [reflexivity |].
           destruct Hcase as [-> | ->]; [now left | now right].
        -- destruct (IH (String d a')) as (x & Hx & Hcase); [simpl in *; lia |].
           exists (String LF x). rewrite !(universal_newlines_cr_other _ _ Hd).
           cbn [String.append] in Hx. rewrite Hx. split; [reflexivity |].
           destruct Hcase as [-> | ->]; [now left | now right].
    + destruct (IH a) as (x & Hx & Hcase); [lia |].
      exists (String c x). rewrite !(universal_newlines_other _ _ Hc), Hx.
      split; [reflexivity |].
      destruct Hcase as [-> | ->]; [now left | now right].
Qed.

(** Reading a profile to which one line was appended after a line break is
    reading the old profile and then that line. *)
Lemma export_loop_after_append (keys : option (list string))
    (old tail : string) :
  tail <> "" -> char_in LF tail = false -> char_in CR tail = false ->
  foldl (EnvironmentVariableManager.export_line keys) ∅
    (readlines (universal_newlines (old +:+ String LF tail))) =
  EnvironmentVariableManager.export_line keys
    (foldl (EnvironmentVariableManager.export_line keys) ∅
       (readlines (universal_newlines old)))
    tail.
Proof.
  intros Hne Hlf Hcr.
  destruct (universal_newlines_app_lf_cases_upto (String.length old) old tail)
    as (x & Hx & Hcase); [lia |].
  rewrite Hx, (universal_newlines_id _ Hcr), readlines_app_lf.
  rewrite (readlines_unterminated tail).
  2:{ unfold unterminated. rewrite Hlf.
      apply String.eqb_neq in Hne. now rewrite Hne. }
  rewrite foldl_app. cbn [foldl]. f_equal.
  destruct Hcase as [<- | ->]; [| reflexivity].
  set (ls := readlines (universal_newlines old)).
  rewrite <- (join_readlines (universal_newlines old)). fold ls.
  rewrite readlines_closed by apply readlines_ok.
  apply export_loop_closed.
Qed.

(** ** What a set changes *)

Lemma exported_lookup (keys : option (list string)) (name : string) (w : World) :
  exported name (EnvironmentVariableManager.export_variables keys w) =
  foldl (EnvironmentVariableManager.export_line keys) ∅
    (rc_lines (selected_rc w) w) !! name.
Proof.
  pose proof (export_variables_value keys w) as H.
  unfold exported. unfold value_of in H.
  destruct (EnvironmentVariableManager.export_variables keys w).1;
    [| discriminate].
  now injection H as ->.
Qed.

Lemma rc_lines_default (path : string) (w : World) :
  rc_lines path w =
  readlines (universal_newlines (default "" (files w !! path))).
Proof. unfold rc_lines. now destruct (files w !! path). Qed.

(** The set of a shell manager appends its line to the selected profile,
    which it creates when it is not there, and changes no other file. *)
Lemma set_variable_appends (w : World) (m : Manager) (key value : string) :
  value_of (get_environment_variable_manager w) = Some m ->
  m <> WindowsManager ->
  (m = MacOSManager ->
   contains "zsh" (default "" (host_environ w !! "SHELL")) = true) ->
  let w' := (set_variable m key value "user" w).2 in
  same_host w w' /\
  files w' =
    <[selected_rc w :=
        default "" (files w !! selected_rc w)
        +:+ String LF (export_entry key value)]> (files w).
Proof.
  intros Hm Hwin Hzsh. cbv zeta.
  unfold get_environment_variable_manager, value_of in Hm.
  revert Hm. py_unfold. unfold selected_rc.
  destruct (host_platform w =? "Windows") eqn:E1.
  { intros [= <-]. contradiction. }
  destruct (host_platform w =? "Linux") eqn:E2.
  - intros [= <-]. cbn [set_variable]. rewrite Linux_set_variable_run.
    apply String.eqb_eq in E2. rewrite E2. cbn. repeat split.
  - destruct (host_platform w =? "Darwin") eqn:E3; [| discriminate].
    intros [= <-]. cbn [set_variable]. rewrite MacOS_set_variable_run.
    rewrite (Hzsh eq_refl). cbn. repeat split.
Qed.

Lemma selected_rc_same_host (w w' : World) :
  same_host w w' -> selected_rc w' = selected_rc w.
Proof.
  intros (H1 & H2 & H3 & _). unfold selected_rc. now rewrite H1, H2, H3.
Qed.

(** X5: set is an update of what the export reads.  For a plain key and a
    one-line value, after the shell manager of the host has set the pair,
    the export (with any key filter that lets the key pass) gives the
    unquoted value for the key and, for every other name, what it gave
    before the set. *)
Theorem set_updates_export (w : World) (m : Manager)
    (keys : option (list string)) (key value name : string) :
  value_of (get_environment_variable_manager w) = Some m ->
  m <> WindowsManager ->
  (m = MacOSManager ->
   contains "zsh" (default "" (host_environ w !! "SHELL")) = true) ->
  plain_key key -> one_line value ->
  exported name
    (EnvironmentVariableManager.export_variables keys
       (set_variable m key value "user" w).2) =
  if bool_decide (name = key) && passes keys key then Some (unquote value)
  else exported name (EnvironmentVariableManager.export_variables keys w).
Proof.
  intros Hm Hwin Hzsh (Hsep & Hlf & Hcr & Hstrip) Hval.
  destruct (set_variable_appends w m key value Hm Hwin Hzsh) as [Hsame Hfiles].
  rewrite !exported_lookup, (selected_rc_same_host _ _ Hsame).
  rewrite (rc_lines_default _ w), (rc_lines_default _ (set_variable _ _ _ _ _).2).
  rewrite Hfiles, lookup_insert_eq. cbn [from_option id].
  destruct (export_entry_one_line key value Hlf Hcr Hval) as (Hne & Hl & Hc).
  rewrite (export_loop_after_append keys _ _ Hne Hl Hc).
  rewrite export_line_entry by assumption.
  destruct (passes keys key); [| now rewrite andb_false_r].
  rewrite andb_true_r. case_bool_decide as Hname.
  - subst name. apply lookup_insert_eq.
  - apply lookup_insert_ne. congruence.
Qed.

Lemma set_updates_export_witness :
  exported "B"
    (EnvironmentVariableManager.export_variables None
       (set_variable LinuxManager "K" quoted_hello "user" linux_selects_A).2) =
  exported "B" (EnvironmentVariableManager.export_variables None linux_selects_A).
Proof.
  apply (set_updates_export linux_selects_A LinuxManager None "K" quoted_hello "B");
    [reflexivity | discriminate | discriminate | repeat split | repeat split].
Defined.

(** ** Entries of a key in the profile *)

Lemma startswith_split (s p : string) :
  startswith s p = true -> exists rest, s = p +:+ rest.
Proof.
  revert s. induction p as [|a p IH]; intros s H.
  - exists s. reflexivity.
  - destruct s as [|b s]; [discriminate |]. simpl in H.
    apply andb_prop in H as [Hab H]. apply Ascii.eqb_eq in Hab. subst b.
    destruct (IH s H) as [rest ->]. now exists rest.
Qed.

Lemma export_pattern_entry (key rest : string) :
  export_pattern key +:+ rest = export_entry key rest.
Proof.
  unfold export_pattern, export_entry.
  change ("export " +:+ key +:+ "=") with ("export " +:+ (key +:+ "=")).
  now rewrite !str_app_assoc.
Qed.

Lemma startswith_closed (l p : string) :
  char_in LF p = false ->
  startswith (l +:+ chr LF) p = startswith l p.
Proof.
  revert p. induction l as [|c l IH]; intros [|a p] Hp; try reflexivity.
  - simpl in *. apply orb_false_elim in Hp as [Ha _].
    now rewrite Ascii.eqb_sym, Ha.
  - simpl in *. apply orb_false_elim in Hp as [_ Hp]. now rewrite IH.
Qed.

Lemma filter_startswith_closed (p : string) (ls : list string) :
  p <> "" -> char_in LF p = false ->
  length (List.filter (fun line => startswith line p) (close_last ls)) =
  length (List.filter (fun line => startswith line p) ls) /\
  (List.filter (fun line => startswith line p) ls = [] ->
   List.filter (fun line => startswith line p) (close_last ls) = []).
Proof.
  intros Hne Hp.
  assert (Hblank : startswith (chr LF) p = false).
  { destruct p as [|a p]; [contradiction |]. simpl in *.
    apply orb_false_elim in Hp as [Ha _]. now rewrite Ascii.eqb_sym, Ha. }
  induction ls as [|l ls [IH1 IH2]];
    [cbn [close_last List.filter]; now rewrite Hblank |].
  destruct ls as [|l' ls].
  - cbn [close_last]. destruct (terminated l); cbn [List.filter].
    + rewrite Hblank. destruct (startswith l p); split; auto.
    + rewrite startswith_closed by exact Hp.
      destruct (startswith l p); split; auto; discriminate.
  - change (close_last (l :: l' :: ls)) with (l :: close_last (l' :: ls)).
    cbn [List.filter] in *. destruct (startswith l p); cbn [length].
    + split; [now rewrite IH1 | discriminate].
    + split; [exact IH1 | exact IH2].
Qed.

(** The lines of a profile after one line was appended to it: the old
    lines, the last of them closed, and the new line. *)
Lemma rc_lines_after_append (old tail : string) :
  tail <> "" -> char_in LF tail = false -> char_in CR tail = false ->
  exists ls,
    readlines (universal_newlines (old +:+ String LF tail)) = ls ++ [tail] /\
    (ls = readlines (universal_newlines old) \/
     ls = close_last (readlines (universal_newlines old))).
Proof.
  intros Hne Hlf Hcr.
  destruct (universal_newlines_app_lf_cases_upto (String.length old) old tail)
    as (x & Hx & Hcase); [lia |].
  rewrite Hx, (universal_newlines_id _ Hcr), readlines_app_lf.
  rewrite (readlines_unterminated tail).
  2:{ unfold unterminated. rewrite Hlf.
      apply String.eqb_neq in Hne. now rewrite Hne. }
  eexists. split; [reflexivity |].
  destruct Hcase as [<- | ->]; [right | now left].
  set (ls := readlines (universal_newlines old)).
  rewrite <- (join_readlines (universal_newlines old)). fold ls.
  apply readlines_closed, readlines_ok.
Qed.

Lemma entries_after_remove (w : World) (rc_file key : string) :
  entries rc_file key
    (LinuxEnvironmentVariableManager.remove_variable_from_shell_rc
       rc_file key w).2 = [].
Proof.
  unfold entries. rewrite rc_lines_after_remove.
  induction (rc_lines rc_file w) as [|l ls IH]; [reflexivity |].
  simpl. destruct (startswith l (export_pattern key)) eqn:E; simpl;
    [exact IH | now rewrite E].
Qed.

Lemma entries_after_set (w : World) (key value : string) :
  host_platform w = "Linux" ->
  char_in LF key = false -> char_in CR key = false -> one_line value ->
  exists before,
    entries (selected_rc w) key
      (LinuxEnvironmentVariableManager.set_variable key value "user" w).2 =
    before ++ [export_entry key value] /\
    length before = length (entries (selected_rc w) key w) /\
    (entries (selected_rc w) key w = [] -> before = []).
Proof.
  intros Hlinux Hlf Hcr Hval.
  assert (Hrc : selected_rc w = home w +:+ "/.bashrc")
    by (unfold selected_rc; now rewrite Hlinux).
  rewrite Linux_set_variable_run. cbn [snd]. unfold entries.
  rewrite (rc_lines_default _ w), (rc_lines_default _ (with_stdout _ _)).
  cbn [files with_stdout with_files]. rewrite Hrc, lookup_insert_eq.
  cbn [from_option id].
  destruct (export_entry_one_line key value Hlf Hcr Hval) as (Hne & Hl & Hc).
  destruct (rc_lines_after_append
              (default "" (files w !! (home w +:+ "/.bashrc"))) _ Hne Hl Hc)
    as (ls & -> & Hls).
  destruct (export_pattern_plain key Hlf) as [Hpne Hplf].
  rewrite List.filter_app. cbn [List.filter].
  assert (Hs : startswith (export_entry key value) (export_pattern key) = true)
    by (rewrite <- export_pattern_entry; apply startswith_app).
  rewrite Hs. eexists. split; [reflexivity |].
  destruct Hls as [-> | ->]; [split; auto |].
  now apply filter_startswith_closed.
Qed.

(** X6: on Linux, for a key and a value without line break, a set adds
    exactly one entry of the key at the end of the profile and keeps as
    many entries as were there, so entries pile up; a delete followed by a
    set leaves exactly one entry, the new one. *)
Theorem overwrite_leaves_one_entry (w : World) (key value : string) :
  host_platform w = "Linux" ->
  char_in LF key = false -> char_in CR key = false -> one_line value ->
  (exists before,
     entries (selected_rc w) key (set_variable LinuxManager key value "user" w).2 =
       before ++ [export_entry key value] /\
     length before = length (entries (selected_rc w) key w)) /\
  entries (selected_rc w) key
    (set_variable LinuxManager key value "user"
       (remove_variable_from_shell_rc LinuxManager (selected_rc w) key w).2).2 =
    [export_entry key value].
Proof.
  intros Hlinux Hlf Hcr Hval. cbn [set_variable remove_variable_from_shell_rc].
  split.
  - destruct (entries_after_set w key value Hlinux Hlf Hcr Hval)
      as (before & H1 & H2 & _).
    now exists before.
  - pose proof (remove_step (selected_rc w) key w) as (_ & Hsame & _).
    cbn [remove_variable_from_shell_rc] in Hsame.
    set (w1 := (LinuxEnvironmentVariableManager.remove_variable_from_shell_rc
                  (selected_rc w) key w).2) in *.
    assert (Hl1 : host_platform w1 = "Linux")
      by (destruct Hsame as (-> & _); exact Hlinux).
    destruct (entries_after_set w1 key value Hl1 Hlf Hcr Hval)
      as (before & H1 & _ & H3).
    rewrite (selected_rc_same_host _ _ Hsame) in H1, H3.
    rewrite H1, H3; [reflexivity |]. apply entries_after_remove.
Qed.

Lemma overwrite_leaves_one_entry_witness :
  entries (selected_rc linux_selects_A) "A"
    (set_variable LinuxManager "A" "1" "user"
       (remove_variable_from_shell_rc LinuxManager
          (selected_rc linux_selects_A) "A" linux_selects_A).2).2 =
  [export_entry "A" "1"].
Proof.
  apply (overwrite_leaves_one_entry linux_selects_A "A" "1");
    [reflexivity | reflexivity | reflexivity | split; reflexivity].
Defined.

(** ** What a delete changes *)

Lemma export_line_entry_name (keys : option (list string))
    (env : gmap string string) (key raw : string) :
  char_in "="%char key = false ->
  EnvironmentVariableManager.export_line keys env (export_entry key raw) =
  if passes keys (strip key) then <[strip key := unquote raw]> env else env.
Proof.
  intros Hsep. rewrite export_line_cases.
  unfold wellformed_export, name_of. rewrite strip_export_entry.
  change (skip 7 (export_entry key (rstrip_by isspace raw)))
    with (key +:+ String "=" (rstrip_by isspace raw)).
  rewrite startswith_export_entry, contains_separator,
    (split_once_app _ _ _ Hsep). cbn [fst snd andb].
  unfold unquote, strip. rewrite strip_by_rstrip. reflexivity.
Qed.

Lemma export_line_agree (keys : option (list string))
    (env1 env2 : gmap string string) (line name : string) :
  env1 !! name = env2 !! name ->
  EnvironmentVariableManager.export_line keys env1 line !! name =
  EnvironmentVariableManager.export_line keys env2 line !! name.
Proof.
  intros H. rewrite !export_line_cases.
  destruct (wellformed_export line && passes keys (name_of line)); [| exact H].
  destruct (decide (name_of line = name)) as [<- | Hne].
  - now rewrite !lookup_insert_eq.
  - now rewrite !lookup_insert_ne by exact Hne.
Qed.

Lemma export_loop_without_entries (keys : option (list string))
    (key name : string) (ls : list string) (env1 env2 : gmap string string) :
  char_in "="%char key = false -> name <> strip key ->
  env1 !! name = env2 !! name ->
  foldl (EnvironmentVariableManager.export_line keys) env1
    (List.filter (fun line => negb (startswith line (export_pattern key))) ls)
    !! name =
  foldl (EnvironmentVariableManager.export_line keys) env2 ls !! name.
Proof.
  intros Hsep Hname. revert env1 env2.
  induction ls as [|l ls IH]; intros env1 env2 H; [exact H |].
  cbn [List.filter foldl].
  destruct (startswith l (export_pattern key)) eqn:E; cbn [negb foldl].
  - apply IH. rewrite H.
    destruct (startswith_split _ _ E) as [rest ->].
    rewrite export_pattern_entry, (export_line_entry_name _ _ _ _ Hsep).
    destruct (passes keys (strip key)); [| reflexivity].
    symmetry. apply lookup_insert_ne. congruence.
  - apply IH. now apply export_line_agree.
Qed.

Lemma filter_filter_same {A} (f : A -> bool) (l : list A) :
  List.filter f (List.filter f l) = List.filter f l.
Proof.
  induction l as [|x l IH]; [reflexivity |].
  simpl. destruct (f x) eqn:E; simpl; [rewrite E, IH |]; auto.
Qed.

(** X7: the Linux delete of a key without [=] leaves what the export
    gives for every name other than the stripped key.  The export strips
    the white space around a name, so the name that a delete can take away
    is the key without the white space around it, and no other.  A second
    delete of the same key changes nothing in the files, and no delete
    touches a file other than the profile. *)
Theorem delete_leaves_other_names (w : World) (keys : option (list string))
    (key name : string) :
  let w1 := (remove_variable_from_shell_rc LinuxManager (selected_rc w) key w).2 in
  let w2 := (remove_variable_from_shell_rc LinuxManager (selected_rc w) key w1).2 in
  (char_in "="%char key = false -> name <> strip key ->
   exported name (EnvironmentVariableManager.export_variables keys w1) =
   exported name (EnvironmentVariableManager.export_variables keys w)) /\
  files w2 = files w1 /\
  (forall path, path <> selected_rc w -> files w1 !! path = files w !! path).
Proof.
  cbv zeta. cbn [remove_variable_from_shell_rc].
  pose proof (remove_step (selected_rc w) key w) as (_ & Hsame & _).
  cbn [remove_variable_from_shell_rc] in Hsame.
  split; [| split].
  - intros Hsep Hname.
    rewrite !exported_lookup, (selected_rc_same_host _ _ Hsame).
    rewrite rc_lines_after_remove. now apply export_loop_without_entries.
  - rewrite !remove_variable_from_shell_rc_run. cbn [snd].
    destruct (files w !! selected_rc w) as [c|] eqn:E.
    + cbn [files with_stdout with_files]. rewrite lookup_insert_eq.
      cbn [files with_stdout with_files].
      rewrite readlines_rewritten, filter_filter_same.
      apply insert_insert_eq.
    + cbn [files with_stdout with_calls]. rewrite E. reflexivity.
  - intros path Hpath. rewrite remove_variable_from_shell_rc_run. cbn [snd].
    destruct (files w !! selected_rc w);
      cbn [files with_stdout with_files with_calls];
      [now apply lookup_insert_ne | reflexivity].
Qed.

Lemma delete_leaves_other_names_witness :
  exported "B"
    (EnvironmentVariableManager.export_variables None
       (remove_variable_from_shell_rc LinuxManager
          (selected_rc linux_selects_A) "A" linux_selects_A).2) =
  exported "B" (EnvironmentVariableManager.export_variables None linux_selects_A).
Proof.
  apply (delete_leaves_other_names linux_selects_A None "A" "B");
    [reflexivity | discriminate].
Defined.

(** ** The other answers of the operator *)

(** X8: on a shell platform, when the operator declines to overwrite all
    and then enters nothing but white space and commas, the flow stops
    there: it calls no delete and no set and leaves every file and both
    registry roots as they were. *)
Theorem apply_cancelled (w : World) (m : Manager)
    (env_vars : list (string * string)) (answer choice : string)
    (rest : list string) :
  value_of (get_environment_variable_manager w) = Some m ->
  m <> WindowsManager ->
  conflict_report w env_vars <> [] ->
  stdin w = answer :: choice :: rest ->
  in_list (lower (strip answer)) ["y"; "yes"] = false ->
  (lower choice =? "all") = false ->
  parse_key_list choice = [] ->
  let r := interactive_mode_apply env_vars w in
  r.1 = Return false /\ calls r.2 = calls w /\ files r.2 = files w /\
  hkcu r.2 = hkcu w /\ hklm r.2 = hklm w /\ stdin r.2 = rest.
Proof.
  intros Hm Hwin Hsome Hin Hno Hall Hnone. cbv zeta.
  unfold interactive_mode_apply.
  erewrite bind_run by (apply factory_run, Hm).
  erewrite bind_run by apply get_shell_rc_file_run.
  assert (Hi : isinstance_Windows m = false)
    by (destruct m; [contradiction | |]; reflexivity).
  rewrite Hi.
  erewrite bind_run.
  2:{ erewrite bind_run by apply get_shell_rc_file_run.
      erewrite bind_run by apply collect_found. reflexivity. }
  fold (conflict_report w env_vars).
  destruct (conflict_report w env_vars) as [|k ks] eqn:Hreport;
    [contradiction |].
  erewrite bind_run.
  2:{ erewrite (bind_run (emit _)) by reflexivity.
      erewrite (bind_run (input _)) by (apply input_run; exact Hin).
      rewrite Hno. cbn [negb].
      erewrite (bind_run (_ ≫= _)).
      2:{ erewrite (bind_run (input _)) by (apply input_run; reflexivity).
          rewrite Hall. fold (parse_key_list choice). rewrite Hnone.
          erewrite (bind_run (print _)) by reflexivity. reflexivity. }
      reflexivity. }
  cbv beta iota. repeat split.
Qed.

Lemma apply_cancelled_witness :
  calls (interactive_mode_apply vars_A_B_C
           (host "Linux" "/bin/bash" [(bashrc, profile_A_B)] ["n"; " , "])).2 = [].
Proof.
  apply (apply_cancelled
           (host "Linux" "/bin/bash" [(bashrc, profile_A_B)] ["n"; " , "])
           LinuxManager vars_A_B_C "n" " , " []);
    [reflexivity | discriminate | discriminate | reflexivity | reflexivity
    | reflexivity | reflexivity].
Defined.

(** X9: on Linux, when the operator declines to overwrite all and then
    types the word all, in any case, the flow does what it does for the
    answer yes: a delete for every key of the conflict report, then a set
    for every variable. *)
Theorem apply_all_on_linux (w : World) (env_vars : list (string * string))
    (answer choice : string) (rest : list string) :
  host_platform w = "Linux" ->
  conflict_report w env_vars <> [] ->
  stdin w = answer :: choice :: rest ->
  in_list (lower (strip answer)) ["y"; "yes"] = false ->
  (lower choice =? "all") = true ->
  let r := interactive_mode_apply env_vars w in
  r.1 = Return true /\
  calls r.2 =
    calls w ++ map CallDelete (conflict_report w env_vars) ++ set_calls env_vars.
Proof.
  intros Hlinux Hsome Hin Hno Hall. cbv zeta. unfold interactive_mode_apply.
  assert (Hm : get_environment_variable_manager w = (Return LinuxManager, w)).
  { apply factory_run. unfold get_environment_variable_manager, value_of.
    py_unfold. now rewrite Hlinux. }
  erewrite bind_run by exact Hm.
  erewrite bind_run by apply get_shell_rc_file_run.
  cbn [isinstance_Windows].
  erewrite bind_run.
  2:{ erewrite bind_run by apply get_shell_rc_file_run.
      erewrite bind_run by apply collect_found. reflexivity. }
  fold (conflict_report w env_vars).
  destruct (conflict_report w env_vars) as [|k ks] eqn:Hreport;
    [contradiction |].
  pose (w1 := with_stdin rest
                (with_stdout
                   (((stdout w ++
                      [SayList "The following variables already exist: "
                         (k :: ks)])
                     ++ [Prompt "Do you want to overwrite all of them? (y/n): "])
                    ++ [Prompt overwrite_prompt])
                   (with_stdin (choice :: rest)
                      (with_stdout
                         ((stdout w ++
                           [SayList "The following variables already exist: "
                              (k :: ks)])
                          ++ [Prompt
                                "Do you want to overwrite all of them? (y/n): "])
                         (with_stdout
                            (stdout w ++
                             [SayList "The following variables already exist: "
                                (k :: ks)]) w))))).
  destruct (for_each_calls
              (fun key => remove_variable_from_shell_rc LinuxManager
                            (selected_rc w) key)
              CallDelete (k :: ks) w1 (remove_step (selected_rc w)))
    as (H1 & H2 & H3).
  destruct (for_each (k :: ks) _ w1) as [[[]|e] w2] eqn:E2; cbn in H1, H2, H3;
    [| discriminate].
  destruct (set_loop_run LinuxManager env_vars w2 ltac:(discriminate))
    as (K1 & _ & K3).
  destruct (for_each env_vars _ w2) as [[[]|e] w3] eqn:E3; cbn in K1, K3;
    [| discriminate].
  erewrite bind_run.
  2:{ erewrite (bind_run (emit _)) by reflexivity.
      erewrite (bind_run (input _)) by (apply input_run; exact Hin).
      rewrite Hno. cbn [negb].
      erewrite (bind_run (_ ≫= _)).
      2:{ erewrite (bind_run (input _)) by (apply input_run; reflexivity).
          rewrite Hall. reflexivity. }
      cbv beta iota.
      erewrite (bind_run (for_each _ _)) by exact E2. reflexivity. }
  cbv beta iota. erewrite (bind_run (for_each _ _)) by exact E3.
  split; [reflexivity |].
  change (calls w3 = calls w ++ map CallDelete (k :: ks) ++ set_calls env_vars).
  rewrite K3, H3, <- app_assoc. reflexivity.
Qed.

Lemma apply_all_on_linux_witness :
  calls (interactive_mode_apply vars_A_B_C
           (host "Linux" "/bin/bash" [(bashrc, profile_A_B)] ["no"; "ALL"])).2 =
  [CallDelete "A"; CallDelete "B"; CallSet "A" "1"; CallSet "B" "2";
   CallSet "C" "3"].
Proof.
  apply (apply_all_on_linux
           (host "Linux" "/bin/bash" [(bashrc, profile_A_B)] ["no"; "ALL"])
           vars_A_B_C "no" "ALL" []);
    [reflexivity | discriminate | reflexivity | reflexivity | reflexivity].
Defined.

(** ** The registry back end *)

Lemma query_registry_run (root_key key : string) (w : World) :
  EnvironmentVariableManager.query_registry root_key key w =
  (Return false,
   with_stdout
     (stdout w ++
      [SayExn "Error accessing registry: "
         (if host_platform w =? "Windows"
          then TypeError "The object is not a PyHKEY object"
          else ModuleNotFoundError "winreg")]) w).
Proof.
  unfold EnvironmentVariableManager.query_registry, import_winreg,
    winreg_OpenKey.
  py_unfold. destruct (host_platform w =? "Windows"); reflexivity.
Qed.

(** X10: the registry probe finds nothing.  It passes the name of the root
    as a string where [winreg.OpenKey] wants a key handle, so for every key
    and scope, whatever the registry holds, it returns false, never raises
    and changes neither registry nor files; for the scopes user and system
    it prints one diagnostic. *)
Theorem registry_probe_finds_nothing (w : World) (key system : string) :
  let r := EnvironmentVariableManager.variable_exists_in_registry key system w in
  r.1 = Return false /\
  hkcu r.2 = hkcu w /\ hklm r.2 = hklm w /\ files r.2 = files w /\
  calls r.2 = calls w /\ same_host w r.2 /\
  (system = "user" \/ system = "system" ->
   exists e, stdout r.2 = stdout w ++ [SayExn "Error accessing registry: " e]) /\
  (system <> "user" -> system <> "system" -> stdout r.2 = stdout w).
Proof.
  cbv zeta. unfold EnvironmentVariableManager.variable_exists_in_registry.
  destruct (system =? "user") eqn:E1; [| destruct (system =? "system") eqn:E2].
  - rewrite query_registry_run. repeat split; [eauto |].
    apply String.eqb_eq in E1. contradiction.
  - rewrite query_registry_run. repeat split; [eauto |].
    apply String.eqb_eq in E2. contradiction.
  - apply String.eqb_neq in E1, E2. repeat split.
    intros [H | H]; contradiction.
Qed.

Lemma registry_probe_finds_nothing_witness :
  exists e,
    stdout
      (EnvironmentVariableManager.variable_exists_in_registry "A" "user"
         (windows_host [("A", "1")] [] [])).2 =
    stdout (windows_host [("A", "1")] [] []) ++
    [SayExn "Error accessing registry: " e].
Proof.
  apply (registry_probe_finds_nothing (windows_host [("A", "1")] [] []) "A" "user").
  left. reflexivity.
Defined.

Lemma Windows_set_variable_run (key value system : string) (w : World) :
  WindowsEnvironmentVariableManager.set_variable key value system w =
  (Return tt,
   let w1 := with_calls (calls w ++ [CallSet key value]) w in
   if negb (host_platform w =? "Windows") then
     with_stdout
       (stdout w ++
        [SayExn "Error setting variable: " (ModuleNotFoundError "winreg")])
       w1
   else
   match root_for system with
   | None =>
       with_stdout
         (stdout w ++
          [SayExn "Error setting variable: "
             (ValueError "Invalid system value. Use 'user' or 'system'.")])
         w1
   | Some h =>
       if hive_all_access (hive_of h w) then
         with_stdout
           (stdout w ++
            [Say ("Environment variable " +:+ key +:+ "=" +:+ value
                  +:+ " added to Windows (" +:+ system +:+ ").")])
           (with_hive h
              {| hive_values := <[key := value]> (hive_values (hive_of h w));
                 hive_all_access := hive_all_access (hive_of h w) |} w1)
       else
         with_stdout
           (stdout w ++
            [SayExn "Error setting variable: "
               (PermissionError "Access is denied")])
           w1
   end).
Proof.
  unfold WindowsEnvironmentVariableManager.set_variable,
    WindowsEnvironmentVariableManager.root_of_system, root_for,
    import_winreg, winreg_OpenKey, winreg_SetValueEx.
  py_unfold. cbn.
  destruct (host_platform w =? "Windows"); cbn; [| reflexivity].
  destruct (system =? "user"); [| destruct (system =? "system")]; cbn.
  - destruct (hive_all_access (hkcu w)) eqn:Ha; cbn; [rewrite Ha |]; reflexivity.
  - destruct (hive_all_access (hklm w)) eqn:Ha; cbn; [rewrite Ha |]; reflexivity.
  - reflexivity.
Qed.

(** The loop of the registry export over the values from index [i] on. *)
Lemma enum_loop_run (keys : option (list string)) (reg_key : hkey) (w : World)
    (fuel i : nat) (env : gmap string string) :
  length (map_to_list (hive_values (hive_of reg_key w))) - i < fuel ->
  enum_loop fuel keys reg_key i env w =
  (Return
     (Some
        (foldl (fun env '(name, value) =>
                  if passes keys name then <[name := value]> env else env)
           env (drop i (map_to_list (hive_values (hive_of reg_key w)))))), w).
Proof.
  set (l := map_to_list (hive_values (hive_of reg_key w))).
  revert i env. induction fuel as [|fuel IH]; intros i env Hlen.
  - lia.
  - cbn [enum_loop]. unfold winreg_EnumValue, mbind, py_bind, bind.
    cbv beta iota. change (map_to_list (hive_values (hive_of reg_key w))) with l.
    destruct (l !! i) as [[name value]|] eqn:E.
    + pose proof (lookup_lt_Some _ _ _ E) as Hlt.
      rewrite IH by lia. rewrite (drop_S l (name, value) i E).
      reflexivity.
    + apply lookup_ge_None in E. rewrite drop_ge by exact E. reflexivity.
Qed.

Lemma insert_loop_lookup (p : string -> bool) (l : list (string * string))
    (env : gmap string string) (name : string) :
  NoDup (l.*1) ->
  foldl (fun env '(k, v) => if p k then <[k := v]> env else env) env l !! name =
  match (if p name then (list_to_map l : gmap string string) !! name else None) with
  | Some v => Some v
  | None => env !! name
  end.
Proof.
  revert env. induction l as [|[k v] l IH]; intros env Hnd.
  - cbn. rewrite lookup_empty. now destruct (p name).
  - rewrite fmap_cons in Hnd. apply NoDup_cons in Hnd as [Hk Hnd].
    cbn [fst] in Hk. cbn [foldl]. rewrite (IH _ Hnd).
    cbn [list_to_map foldr uncurry]. destruct (decide (k = name)) as [-> | Hne].
    + rewrite lookup_insert_eq.
      assert (Hnone : (list_to_map l : gmap string string) !! name = None).
      { apply not_elem_of_list_to_map_1. exact Hk. }
      rewrite Hnone. destruct (p name); [apply lookup_insert_eq | reflexivity].
    + rewrite lookup_insert_ne by exact Hne.
      destruct (if p name then _ else _); [reflexivity |].
      destruct (p k); [now apply lookup_insert_ne | reflexivity].
Qed.

Lemma windows_export_run (w : World) (fuel : nat)
    (keys : option (list string)) (system : string) :
  host_platform w = "Windows" ->
  size (hive_values
          (hive_of (if system =? "user" then HKEY_CURRENT_USER
                    else HKEY_LOCAL_MACHINE) w)) < fuel ->
  exists env,
    windows_export_variables fuel keys system w = (Return (Some env), w) /\
    forall name,
      env !! name =
        if passes keys name
        then hive_values
               (hive_of (if system =? "user" then HKEY_CURRENT_USER
                         else HKEY_LOCAL_MACHINE) w) !! name
        else None.
Proof.
  unfold windows_export_variables.
  set (root := if system =? "user" then HKEY_CURRENT_USER
               else HKEY_LOCAL_MACHINE).
  intros Hw Hfuel.
  erewrite bind_run
    by (unfold import_winreg; rewrite Hw; reflexivity).
  unfold try_except, try_except_cls.
  erewrite (bind_run (winreg_OpenKey _ _)) by reflexivity.
  rewrite enum_loop_run by (rewrite length_map_to_list; lia).
  eexists. split; [reflexivity |]. intros name.
  rewrite drop_0, insert_loop_lookup by apply NoDup_fst_map_to_list.
  rewrite list_to_map_to_list, lookup_empty.
  destruct (passes keys name); [| reflexivity].
  now destruct (hive_values (hive_of root w) !! name).
Qed.

(** X11: the registry export.  On Windows, with fuel for one step more
    than the root has values, it returns for every name of the key filter
    the value the root holds for it and nothing for any other name; the
    root is the user root for the scope user and the machine root for every
    other scope; the host is left as it was.  On any other platform the
    import fails and the [ModuleNotFoundError] is not caught. *)
Theorem windows_export_reads_root (w : World) (fuel : nat)
    (keys : option (list string)) (system name : string) :
  let root := if system =? "user" then HKEY_CURRENT_USER
              else HKEY_LOCAL_MACHINE in
  let r := windows_export_variables fuel keys system w in
  (host_platform w = "Windows" ->
   size (hive_values (hive_of root w)) < fuel ->
   r.2 = w /\
   exists env,
     r.1 = Return (Some env) /\
     env !! name =
       if passes keys name then hive_values (hive_of root w) !! name else None) /\
  (host_platform w <> "Windows" ->
   r.1 = Raise (ModuleNotFoundError "winreg") /\ r.2 = w).
Proof.
  cbv zeta. split.
  - intros Hw Hfuel.
    destruct (windows_export_run w fuel keys system Hw Hfuel) as (env & -> & H).
    split; [reflexivity |]. exists env. split; [reflexivity | apply H].
  - intros H. apply String.eqb_neq in H.
    unfold windows_export_variables, import_winreg, mbind, py_bind, bind.
    rewrite H. split; reflexivity.
Qed.

Lemma windows_export_reads_root_witness :
  exists env,
    (windows_export_variables 4 (Some ["X"; "Y"]) "user"
       (windows_host [("X", "1"); ("Y", "2"); ("Z", "3")] [] [])).1 =
      Return (Some env) /\
    env !! "Z" =
      if passes (Some ["X"; "Y"]) "Z"
      then hive_values
             (hive_of HKEY_CURRENT_USER
                (windows_host [("X", "1"); ("Y", "2"); ("Z", "3")] [] []))
             !! "Z"
      else None.
Proof.
  apply (windows_export_reads_root
           (windows_host [("X", "1"); ("Y", "2"); ("Z", "3")] [] []) 4
           (Some ["X"; "Y"]) "user" "Z");
    [reflexivity | apply Nat.ltb_lt; vm_compute; reflexivity].
Defined.

(** X12: the registry set stores or reports, and never raises.  On
    Windows, for a scope that names a root the process may change, the
    value is afterwards found under the key in that root, the other root
    and the files are as before and the success line is printed; without
    the right to change the root, or for a scope that is neither user nor
    system, both roots are as before and one diagnostic is printed. *)
Theorem registry_set_stores_or_reports (w : World) (key value system : string) :
  let r := set_variable WindowsManager key value system w in
  r.1 = Return tt /\ files r.2 = files w /\
  (forall h, host_platform w = "Windows" -> root_for system = Some h ->
     hive_all_access (hive_of h w) = true ->
     hive_values (hive_of h r.2) !! key = Some value /\
     (forall h', h' <> h -> hive_of h' r.2 = hive_of h' w) /\
     stdout r.2 =
       stdout w ++ [Say ("Environment variable " +:+ key +:+ "=" +:+ value
                         +:+ " added to Windows (" +:+ system +:+ ").")]) /\
  (forall h, host_platform w = "Windows" -> root_for system = Some h ->
     hive_all_access (hive_of h w) = false ->
     hkcu r.2 = hkcu w /\ hklm r.2 = hklm w /\
     stdout r.2 =
       stdout w ++ [SayExn "Error setting variable: "
                      (PermissionError "Access is denied")]) /\
  (host_platform w = "Windows" -> root_for system = None ->
   hkcu r.2 = hkcu w /\ hklm r.2 = hklm w /\
   stdout r.2 =
     stdout w ++ [SayExn "Error setting variable: "
                    (ValueError "Invalid system value. Use 'user' or 'system'.")]).
Proof.
  cbv zeta. cbn [set_variable]. rewrite Windows_set_variable_run.
  cbn [fst snd]. cbv zeta. split; [reflexivity |]. split.
  { destruct (negb (host_platform w =? "Windows")); [reflexivity |].
    destruct (root_for system) as [h|]; [| reflexivity].
    destruct (hive_all_access (hive_of h w)); [| reflexivity].
    destruct h; reflexivity. }
  split; [| split].
  - intros h -> -> ->. change (negb ("Windows" =? "Windows")) with false.
    cbv iota. split; [| split].
    + destruct h; cbn; apply lookup_insert_eq.
    + intros h' Hh'. destruct h, h'; try contradiction; reflexivity.
    + destruct h; reflexivity.
  - intros h -> -> ->. repeat split.
  - intros -> ->. repeat split.
Qed.

Lemma registry_set_stores_or_reports_witness :
  hive_values
    (hive_of HKEY_CURRENT_USER
       (set_variable WindowsManager "X" "9" "user"
          (windows_host [("X", "1"); ("Y", "2")] [] [])).2) !! "X" = Some "9" /\
  hklm (set_variable WindowsManager "X" "9" "usr" windows_locked).2 =
    hklm windows_locked.
Proof.
  split.
  - pose proof (registry_set_stores_or_reports
                  (windows_host [("X", "1"); ("Y", "2")] [] []) "X" "9" "user")
      as H.
    cbv zeta in H. destruct H as (_ & _ & H & _).
    apply (H HKEY_CURRENT_USER); reflexivity.
  - pose proof (registry_set_stores_or_reports windows_locked "X" "9" "usr")
      as H.
    cbv zeta in H. destruct H as (_ & _ & _ & _ & H).
    apply H; reflexivity.
Defined.

Lemma collect_registry (keys : list string) (w : World) :
  exists w',
    collect keys
      (fun key =>
         EnvironmentVariableManager.variable_exists_in_registry key "user") w =
    (Return [], w') /\ same_host w w' /\ calls w' = calls w /\
    files w' = files w.
Proof.
  revert w. induction keys as [|k keys IH]; intros w.
  - exists w. repeat split.
  - cbn [collect].
    unfold EnvironmentVariableManager.variable_exists_in_registry at 1.
    change ("user" =? "user") with true. cbv beta iota.
    erewrite bind_run by apply query_registry_run.
    destruct (IH (with_stdout
                    (stdout w ++
                     [SayExn "Error accessing registry: "
                        (if host_platform w =? "Windows"
                         then TypeError "The object is not a PyHKEY object"
                         else ModuleNotFoundError "winreg")]) w))
      as (w' & Hrun & Hsame & Hcalls & Hfiles).
    exists w'. erewrite bind_run by exact Hrun.
    split; [reflexivity |]. repeat split; try apply Hsame; assumption.
Qed.

Lemma for_each_preserves {A} (R : World -> World -> Prop)
    (body : A -> Py unit) (l : list A) (w : World) :
  (forall w0, R w0 w0) ->
  (forall w0 w1 w2, R w0 w1 -> R w1 w2 -> R w0 w2) ->
  (forall x w0, R w0 (body x w0).2) ->
  R w (for_each l body w).2.
Proof.
  intros Hrefl Htrans Hbody. revert w.
  induction l as [|x l IH]; intros w; [apply Hrefl |].
  cbn [for_each]. unfold mbind, py_bind, bind.
  specialize (Hbody x w). destruct (body x w) as [[[]|e] w0]; cbn in Hbody.
  - exact (Htrans _ _ _ Hbody (IH w0)).
  - exact Hbody.
Qed.

Lemma Windows_set_step (system key value : string) (w : World) :
  let r := set_variable WindowsManager key value system w in
  r.1 = Return tt /\ same_host w r.2 /\
  calls r.2 = calls w ++ [CallSet key value].
Proof.
  cbv zeta. cbn [set_variable]. rewrite Windows_set_variable_run.
  cbn [fst snd]. cbv zeta. split; [reflexivity |].
  destruct (negb (host_platform w =? "Windows")); [repeat split |].
  destruct (root_for system) as [h|]; [| repeat split].
  destruct (hive_all_access (hive_of h w)); [| repeat split].
  destruct h; repeat split.
Qed.

Lemma Windows_set_files (system key value : string) (w : World) :
  files (set_variable WindowsManager key value system w).2 = files w.
Proof.
  cbn [set_variable]. rewrite Windows_set_variable_run. cbn [snd]. cbv zeta.
  destruct (negb (host_platform w =? "Windows")); [reflexivity |].
  destruct (root_for system) as [h|]; [| reflexivity].
  destruct (hive_all_access (hive_of h w)); [| reflexivity].
  destruct h; reflexivity.
Qed.

(** X13: on Windows the flow never deletes.  The probe finds nothing, so
    the operator is not asked about conflicts; the flow asks for the scope
    and calls [set_variable] once for every variable, in order, and it
    touches no file. *)
Theorem apply_on_windows (w : World) (env_vars : list (string * string))
    (answer : string) (rest : list string) :
  host_platform w = "Windows" ->
  stdin w = answer :: rest ->
  let r := interactive_mode_apply env_vars w in
  r.1 = Return true /\ calls r.2 = calls w ++ set_calls env_vars /\
  files r.2 = files w /\ stdin r.2 = rest.
Proof.
  intros Hw Hin. cbv zeta. unfold interactive_mode_apply.
  assert (Hm : get_environment_variable_manager w = (Return WindowsManager, w)).
  { apply factory_run. unfold get_environment_variable_manager, value_of.
    py_unfold. now rewrite Hw. }
  erewrite bind_run by exact Hm.
  erewrite bind_run by apply get_shell_rc_file_run.
  cbn [isinstance_Windows].
  destruct (collect_registry (map fst env_vars) w)
    as (w1 & Hprobe & (P1 & P2 & P3 & P4) & Hcalls & Hfiles).
  erewrite bind_run.
  2:{ erewrite bind_run by exact Hprobe. reflexivity. }
  cbv beta iota. erewrite bind_run by reflexivity. cbv beta iota.
  set (w2 := with_stdin rest
               (with_stdout
                  (stdout w1 ++ [Prompt "Set variables as 'user' or 'system'? "])
                  w1)).
  set (body := fun '(key, value) =>
                 set_variable WindowsManager key value (lower (strip answer))).
  destruct (for_each_calls body (fun '(key, value) => CallSet key value)
              env_vars w2) as (H1 & H2 & H3).
  { intros [k v] w0. apply Windows_set_step. }
  pose proof (for_each_preserves (fun a b => files b = files a) body env_vars w2
                (fun _ => eq_refl)
                (fun a b c Hab Hbc => eq_trans Hbc Hab)) as H4.
  destruct (for_each env_vars body w2) as [[[]|e] w3] eqn:E3;
    cbn in H1, H2, H3, H4; [| discriminate].
  erewrite bind_run.
  2:{ erewrite (bind_run (input _))
        by (apply input_run; rewrite P4; exact Hin).
      cbv beta zeta. exact E3. }
  split; [reflexivity |].
  change (calls w3 = calls w ++ set_calls env_vars /\
          files w3 = files w /\ stdin w3 = rest).
  split; [rewrite H3; cbn; now rewrite Hcalls |].
  split.
  - rewrite H4; [exact Hfiles |]. intros [k v] w0. apply Windows_set_files.
  - destruct H2 as (_ & _ & _ & ->). reflexivity.
Qed.

Lemma apply_on_windows_witness :
  calls (interactive_mode_apply vars_A_B_C
           (windows_host [("A", "0")] [] ["user"])).2 =
  calls (windows_host [("A", "0")] [] ["user"]) ++ set_calls vars_A_B_C.
Proof.
  apply (apply_on_windows (windows_host [("A", "0")] [] ["user"]) vars_A_B_C
           "user" []); reflexivity.
Defined.

(** ** Variables typed by the operator *)

Lemma input_eof (prompt : string) (w : World) :
  stdin w = [] -> (input prompt w).1 = Raise EOFError.
Proof. intros H. unfold input. py_unfold. cbn. now rewrite H. Qed.

Lemma dict_set_keys (key value : string) (d : list (string * string)) :
  (In key (map fst d) /\ map fst (dict_set key value d) = map fst d) \/
  (~ In key (map fst d) /\ map fst (dict_set key value d) = map fst d ++ [key]).
Proof.
  induction d as [|[k v] d IH]; [right; split; [intros [] | reflexivity] |].
  cbn [dict_set]. destruct (k =? key) eqn:E.
  - apply String.eqb_eq in E. subst k. left. split; [now left | reflexivity].
  - apply String.eqb_neq in E. cbn [map fst]. destruct IH as [[H1 H2] | [H1 H2]].
    + left. split; [now right | now rewrite H2].
    + right. split; [| now rewrite H2]. intros [H | H]; [congruence | tauto].
Qed.

Lemma nodup_snoc (x : string) (l : list string) :
  ~ In x l -> List.NoDup l -> List.NoDup (l ++ [x]).
Proof.
  induction l as [|y l IH]; intros Hx Hnd.
  - constructor; [intros [] | constructor].
  - inversion Hnd as [|? ? Hy Hl]; subst. cbn. constructor.
    + rewrite in_app_iff. intros [H | [H | []]]; [contradiction |].
      subst y. apply Hx. now left.
    + apply IH; [| exact Hl]. intros H. apply Hx. now right.
Qed.

Lemma dict_set_ok (key value : string) (d : list (string * string)) :
  key <> "" -> strip key = key -> strip value = value ->
  List.NoDup (map fst d) -> dict_ok d ->
  List.NoDup (map fst (dict_set key value d)) /\ dict_ok (dict_set key value d) /\
  In (key, value) (dict_set key value d).
Proof.
  intros Hne Hk Hv Hnd Hok. split; [| split].
  - destruct (dict_set_keys key value d) as [[_ ->] | [Hnot ->]]; [exact Hnd |].
    now apply nodup_snoc.
  - unfold dict_ok in *. induction d as [|[k v] d IH];
      cbn [dict_set].
    + intros kv [<- | []]. auto.
    + inversion Hnd; subst.
      destruct (k =? key) eqn:E.
      * apply String.eqb_eq in E. subst k.
        intros kv [<- | Hin]; [auto | apply Hok; now right].
      * intros kv [<- | Hin]; [apply Hok; now left |].
        apply IH; [assumption | | exact Hin].
        intros kv' Hin'. apply Hok. now right.
  - induction d as [|[k v] d IH]; cbn [dict_set]; [now left |].
    destruct (k =? key) eqn:E.
    + apply String.eqb_eq in E. subst k. now left.
    + right. apply IH.
      * now inversion Hnd.
      * intros kv Hin. apply Hok. now right.
Qed.

Lemma input_loop_safe (fuel : nat) (d : list (string * string)) (w : World) :
  length (stdin w) < fuel ->
  List.NoDup (map fst d) -> dict_ok d ->
  (input_loop fuel d w).1 = Raise EOFError \/
  exists d', (input_loop fuel d w).1 = Return (Some d') /\
             List.NoDup (map fst d') /\ dict_ok d'.
Proof.
  revert d w. induction fuel as [|fuel IH]; intros d w Hlen Hnd Hok; [lia |].
  cbn [input_loop].
  destruct (stdin w) as [|answer rest] eqn:Hin.
  { left. unfold mbind, py_bind, bind.
    pose proof (input_eof "Variable key: " w Hin) as H.
    destruct (input "Variable key: " w) as [[a|e] w0]; cbn in H;
      [discriminate | now injection H as ->]. }
  erewrite bind_run by (apply input_run; exact Hin). cbv zeta.
  destruct (strip answer =? "") eqn:Hkey; [right; exists d; auto |].
  destruct rest as [|answer2 rest2].
  { left. unfold mbind, py_bind, bind.
    match goal with |- context [input ?p ?w0] =>
      pose proof (input_eof p w0 eq_refl) as H;
      destruct (input p w0) as [[a|e] w1]; cbn in H;
      [discriminate | now injection H as ->]
    end. }
  erewrite bind_run by (apply input_run; reflexivity).
  apply String.eqb_neq in Hkey.
  destruct (dict_set_ok (strip answer) (strip answer2) d Hkey
              (strip_by_idem _ _) (strip_by_idem _ _) Hnd Hok)
    as (Hnd' & Hok' & _).
  apply IH; [| assumption | assumption].
  cbn [stdin with_stdin]. simpl in Hlen. lia.
Qed.

Lemma input_loop_pairs (fuel : nat) (pairs : list (string * string))
    (blank : string) (rest : list string) (d : list (string * string))
    (w : World) :
  length pairs < fuel ->
  Forall (fun kv => strip kv.1 <> "") pairs -> strip blank = "" ->
  stdin w = flat_map (fun kv => [kv.1; kv.2]) pairs ++ blank :: rest ->
  (input_loop fuel d w).1 =
    Return (Some (foldl (fun d kv => dict_set (strip kv.1) (strip kv.2) d)
                    d pairs)) /\
  stdin (input_loop fuel d w).2 = rest.
Proof.
  revert pairs d w. induction fuel as [|fuel IH];
    intros pairs d w Hlen Hkeys Hblank Hin; [lia |].
  cbn [input_loop]. destruct pairs as [|[k v] pairs].
  - cbn in Hin. erewrite bind_run by (apply input_run; exact Hin).
    cbv zeta. rewrite Hblank. split; reflexivity.
  - cbn in Hin. erewrite bind_run by (apply input_run; exact Hin).
    cbv zeta. apply Forall_cons in Hkeys as [Hk Hkeys]. cbn [fst] in Hk.
    apply String.eqb_neq in Hk. rewrite Hk.
    erewrite bind_run by (apply input_run; reflexivity).
    cbn [foldl fst snd]. apply IH; [simpl in Hlen; lia | assumption.. |].
    reflexivity.
Qed.

(** X14: what [interactive_input_all] returns.  When the operator types
    pairs of a key and a value, the keys not blank, and then a blank line,
    the result is the dictionary of the stripped pairs, a key typed again
    keeping its place and taking the last value, and the rest of the input
    is left unread.  Whatever is typed, with fuel for one turn more than
    there are lines, the loop ends: either the input ran out before a blank
    key ([EOFError]) or the result has distinct keys, none empty, and keys
    and values without white space at their ends. *)
Theorem interactive_input_all_reads_pairs (fuel : nat) (w : World)
    (pairs : list (string * string)) (blank : string) (rest : list string) :
  (length pairs < fuel ->
   Forall (fun kv => strip kv.1 <> "") pairs -> strip blank = "" ->
   stdin w = flat_map (fun kv => [kv.1; kv.2]) pairs ++ blank :: rest ->
   (interactive_input_all fuel w).1 =
     Return (Some (foldl (fun d kv => dict_set (strip kv.1) (strip kv.2) d)
                     [] pairs)) /\
   stdin (interactive_input_all fuel w).2 = rest) /\
  (length (stdin w) < fuel ->
   (interactive_input_all fuel w).1 = Raise EOFError \/
   exists d, (interactive_input_all fuel w).1 = Return (Some d) /\
             List.NoDup (map fst d) /\ dict_ok d).
Proof.
  unfold interactive_input_all.
  erewrite (bind_run (print _)) by reflexivity.
  split.
  - intros Hlen Hkeys Hblank Hin.
    apply (input_loop_pairs fuel pairs blank rest); assumption.
  - intros Hlen. apply input_loop_safe; [exact Hlen | constructor |].
    intros kv [].
Qed.

Lemma interactive_input_all_reads_pairs_witness :
  (interactive_input_all 3
     (host "Linux" "/bin/bash" [] [" A "; "1"; "A"; " 2"; " "; "x"])).1 =
    Return (Some (foldl (fun d kv => dict_set (strip kv.1) (strip kv.2) d)
                    [] [(" A ", "1"); ("A", " 2")])) /\
  stdin (interactive_input_all 3
           (host "Linux" "/bin/bash" [] [" A "; "1"; "A"; " 2"; " "; "x"])).2 =
    ["x"].
Proof.
  apply (interactive_input_all_reads_pairs 3
           (host "Linux" "/bin/bash" [] [" A "; "1"; "A"; " 2"; " "; "x"])
           [(" A ", "1"); ("A", " 2")] " " ["x"]);
    [simpl; lia | repeat constructor; discriminate | reflexivity | reflexivity].
Defined.

(** ** The export branch *)

Lemma export_variables_run (keys : option (list string)) (w : World) :
  EnvironmentVariableManager.export_variables keys w =
  (Return (foldl (EnvironmentVariableManager.export_line keys) ∅
             (rc_lines (selected_rc w) w)),
   match files w !! selected_rc w with
   | Some _ => w
   | None =>
       with_stdout
         (stdout w ++ [Say ("Shell rc file not found: " +:+ selected_rc w)]) w
   end).
Proof.
  unfold EnvironmentVariableManager.export_variables, rc_lines.
  erewrite bind_run by apply get_shell_rc_file_run.
  py_unfold.
  destruct (files w !! selected_rc w) as [c|] eqn:E; cbn; [rewrite E |];
    reflexivity.
Qed.

(** X15: the export of the shell managers reads only.  Whatever the key
    filter and the host, it returns normally and changes no file, no
    registry root, no recorded call and no pending input; when the
    selected profile does not exist it returns the empty mapping, says so
    in one line and does not create the profile. *)
Theorem export_reads_only (keys : option (list string)) (w : World) :
  let r := EnvironmentVariableManager.export_variables keys w in
  (exists env, r.1 = Return env) /\
  files r.2 = files w /\ hkcu r.2 = hkcu w /\ hklm r.2 = hklm w /\
  calls r.2 = calls w /\ same_host w r.2 /\
  (files w !! selected_rc w = None ->
   r.1 = Return ∅ /\
   stdout r.2 =
     stdout w ++ [Say ("Shell rc file not found: " +:+ selected_rc w)]).
Proof.
  cbv zeta. rewrite export_variables_run. cbn [fst snd].
  split; [eauto |].
  destruct (files w !! selected_rc w) as [c|] eqn:E.
  - repeat split; discriminate.
  - repeat split; try reflexivity. unfold rc_lines. now rewrite E.
Qed.

Lemma export_reads_only_witness :
  (EnvironmentVariableManager.export_variables None linux_fresh).1 = Return ∅ /\
  stdout (EnvironmentVariableManager.export_variables None linux_fresh).2 =
    stdout linux_fresh ++
    [Say ("Shell rc file not found: " +:+ selected_rc linux_fresh)].
Proof. apply (export_reads_only None linux_fresh). reflexivity. Defined.

Lemma export_loop_no_keys (ls : list string) (env : gmap string string) :
  foldl (EnvironmentVariableManager.export_line (Some [])) env ls = env.
Proof.
  revert env. induction ls as [|l ls IH]; intros env; [reflexivity |].
  cbn [foldl]. rewrite IH, export_line_cases. cbn [passes in_list existsb].
  now rewrite andb_false_r.
Qed.

Lemma factory_same_platform (w w' : World) (m : Manager) :
  host_platform w' = host_platform w ->
  value_of (get_environment_variable_manager w) = Some m ->
  get_environment_variable_manager w' = (Return m, w').
Proof.
  intros Hp Hm. apply factory_run. revert Hm.
  unfold get_environment_variable_manager, value_of. py_unfold.
  rewrite Hp.
  destruct (host_platform w =? "Windows"); [auto |].
  destruct (host_platform w =? "Linux"); [auto |].
  destruct (host_platform w =? "Darwin"); auto.
Qed.

(** X16: the export branch on a shell platform.  It changes no file.  When
    the operator enters nothing but white space and commas, nothing is
    exported: the branch says so and ends before any file name is asked.
    When the operator types the word all, in any case and with white space
    around it, the mapping that goes on to the file is what the export
    without filter gives, unless that is empty. *)
Theorem export_branch_on_shell (fuel : nat) (w : World) (m : Manager)
    (answer : string) (rest : list string) :
  value_of (get_environment_variable_manager w) = Some m ->
  m <> WindowsManager ->
  stdin w = answer :: rest ->
  let r := interactive_mode_export fuel w in
  files r.2 = files w /\ stdin r.2 = rest /\
  ((lower (strip answer) =? "all") = false ->
   parse_key_list (strip answer) = [] ->
   r.1 = Return None /\
   exists out,
     stdout r.2 =
       out ++ [Say "No valid environment variables found for export. Exiting."]) /\
  ((lower (strip answer) =? "all") = true ->
   exists env,
     value_of (EnvironmentVariableManager.export_variables None w) = Some env /\
     r.1 = Return (if bool_decide (env = ∅) then None else Some env)).
Proof.
  intros Hm Hwin Hin. cbv zeta. unfold interactive_mode_export.
  erewrite bind_run by (apply input_run; exact Hin). cbv zeta.
  set (w1 := with_stdin rest (with_stdout (stdout w ++ [Prompt export_prompt]) w)).
  assert (Hm1 : get_environment_variable_manager w1 = (Return m, w1)).
  { apply (factory_same_platform w); [reflexivity | exact Hm]. }
  erewrite bind_run by exact Hm1.
  assert (Hi : isinstance_Windows m = false)
    by (destruct m; [contradiction | |]; reflexivity).
  rewrite Hi.
  set (keys := if lower (strip answer) =? "all" then None
               else Some (parse_key_list (strip answer))).
  erewrite bind_run by apply export_variables_run.
  change (selected_rc w1) with (selected_rc w).
  change (rc_lines (selected_rc w) w1) with (rc_lines (selected_rc w) w).
  change (files w1) with (files w).
  set (env := foldl (EnvironmentVariableManager.export_line keys) ∅
                (rc_lines (selected_rc w) w)).
  assert (Hframe : forall w2 : World,
            files w2 = files w -> stdin w2 = rest ->
            files ((if bool_decide (env = ∅)
                    then print "No valid environment variables found for export. Exiting.";;
                         ret None
                    else ret (Some env)) w2).2 = files w /\
            stdin ((if bool_decide (env = ∅)
                    then print "No valid environment variables found for export. Exiting.";;
                         ret None
                    else ret (Some env)) w2).2 = rest).
  { intros w2 Hf Hs. destruct (bool_decide (env = ∅)); cbn; auto. }
  split; [| split; [| split]].
  - destruct (files w !! selected_rc w); now apply Hframe.
  - destruct (files w !! selected_rc w); now apply Hframe.
  - clear Hframe. intros Hall Hnone. subst env keys.
    rewrite Hall, Hnone, export_loop_no_keys.
    rewrite bool_decide_eq_true_2 by reflexivity.
    destruct (files w !! selected_rc w); cbn; (split; [reflexivity |]);
      eexists; reflexivity.
  - clear Hframe. intros Hall. subst env keys. rewrite Hall.
    exists (foldl (EnvironmentVariableManager.export_line None) ∅
              (rc_lines (selected_rc w) w)).
    split; [apply export_variables_value |].
    destruct (bool_decide (_ = ∅)); destruct (files w !! selected_rc w);
      reflexivity.
Qed.

Lemma export_branch_on_shell_witness :
  (interactive_mode_export 1
     (host "Linux" "/bin/bash" [(bashrc, profile_A_B)] [" , "])).1 = Return None /\
  exists out,
    stdout (interactive_mode_export 1
              (host "Linux" "/bin/bash" [(bashrc, profile_A_B)] [" , "])).2 =
    out ++ [Say "No valid environment variables found for export. Exiting."].
Proof.
  apply (export_branch_on_shell 1
           (host "Linux" "/bin/bash" [(bashrc, profile_A_B)] [" , "])
           LinuxManager " , " []);
    [reflexivity | discriminate | reflexivity | reflexivity | reflexivity].
Defined.

(** ** Set, then the existence check *)

Lemma universal_newlines_app_plain (a b : string) :
  char_in CR a = false ->
  universal_newlines (a +:+ b) = a +:+ universal_newlines b.
Proof.
  induction a as [|c a IH]; [reflexivity |].
  intros H. cbn [char_in] in H. apply orb_false_elim in H as [H1 H2].
  cbn [String.append].
  rewrite universal_newlines_other by (now rewrite Ascii.eqb_sym).
  now rewrite IH.
Qed.

(** X17: what set wrote, the existence check finds.  For a key without
    carriage return and any value, after the shell manager of the host has
    set the pair, the existence check on the selected profile succeeds. *)
Theorem set_then_exists (w : World) (m : Manager) (key value : string) :
  value_of (get_environment_variable_manager w) = Some m ->
  m <> WindowsManager ->
  (m = MacOSManager ->
   contains "zsh" (default "" (host_environ w !! "SHELL")) = true) ->
  char_in CR key = false ->
  value_of
    (EnvironmentVariableManager.variable_exists_in_shell_rc (selected_rc w) key
       (set_variable m key value "user" w).2) = Some true.
Proof.
  intros Hm Hwin Hzsh Hcr.
  destruct (set_variable_appends w m key value Hm Hwin Hzsh) as [_ Hfiles].
  rewrite variable_exists_in_shell_rc_run. unfold value_of. cbn [fst].
  rewrite Hfiles, lookup_insert_eq. f_equal.
  destruct (universal_newlines_app_lf
              (default "" (files w !! selected_rc w)) (export_entry key value))
    as [x ->].
  rewrite <- export_pattern_entry, universal_newlines_app_plain.
  - apply contains_app_l.
    change (String LF (export_pattern key +:+ universal_newlines value))
      with (chr LF +:+ (export_pattern key +:+ universal_newlines value)).
    apply contains_app_l, contains_startswith, startswith_app.
  - unfold export_pattern. now rewrite !char_in_app, Hcr.
Qed.

Lemma set_then_exists_witness :
  value_of
    (EnvironmentVariableManager.variable_exists_in_shell_rc
       (selected_rc linux_fresh) two_line_key
       (set_variable LinuxManager two_line_key "1" "user" linux_fresh).2) =
  Some true.
Proof.
  apply (set_then_exists linux_fresh LinuxManager two_line_key "1");
    [reflexivity | discriminate | discriminate | reflexivity].
Defined.
